(** * Whisper: the build-time networking gate

    A shallow embedding of [WhisperApp/Scripts/check_networking_symbols.py]
    and the properties of its two scanners and of its exit code.

    The script talks to the operating system through four calls:
    [os.path.exists], [os.walk], [open(...).read()] and [subprocess.run].
    Their answers are collected in a record [world]; the script itself is
    written in a small monad that threads the mutable local list of each
    function ([found_symbols], [found_issues]), records what is printed and
    which processes and files are touched, and carries Python exceptions so
    that [try ... except Exception] can be modelled as written.

    Conventions of the model:
    - the answers of the operating system do not change during a run;
    - [print] does not raise;
    - text is a [string] of bytes; the patterns are ASCII, so a pattern
      occurs in the bytes of a UTF-8 text exactly when it occurs in its
      characters;
    - an exception is one that [except Exception] catches. *)

From Stdlib Require Import String Ascii List Bool ZArith Lia Permutation.
Import ListNotations.
Open Scope string_scope.
Open Scope list_scope.

(** String concatenation, as [+] on Python strings and in f-strings. *)
Infix "+++" := String.append (right associativity, at level 60).

(** ** Python strings *)

Module PyStr.

(** [s.startswith(p)] *)
Definition startswith (s p : string) : bool := String.prefix p s.

(** [s.endswith(suf)]: the last [len(suf)] characters of [s] are [suf]. *)
Definition endswith (s suf : string) : bool :=
  (String.length suf <=? String.length s)%nat &&
  String.eqb
    (String.substring (String.length s - String.length suf)
                      (String.length suf) s)
    suf.

(** [s.endswith((suf1, suf2, ...))] with a tuple argument. *)
Definition endswith_any (s : string) (sufs : list string) : bool :=
  existsb (endswith s) sufs.

(** [pat in s]: [pat] occurs in [s] at some offset. *)
Fixpoint contains (s pat : string) : bool :=
  String.prefix pat s ||
  match s with
  | EmptyString => false
  | String _ rest => contains rest pat
  end.

(** Truth value of a string: empty strings are false. *)
Definition truthy (s : string) : bool :=
  match s with EmptyString => false | String _ _ => true end.

(** The declarative reading of [pat in s]. *)
Definition substring_of (pat s : string) : Prop :=
  exists before after, s = before +++ pat +++ after.

End PyStr.

(** [posixpath.join(a, b)] for two components. *)
Definition os_path_join (a b : string) : string :=
  if PyStr.startswith b "/" then b
  else if negb (PyStr.truthy a) || PyStr.endswith a "/" then a +++ b
  else a +++ "/" +++ b.

(** ** The policy lists *)

Definition FORBIDDEN_SYMBOLS : list string :=
  [ "URLSession";
    "NSURLSession";
    "NSURLConnection";
    "CFSocket";
    "Network.framework";
    "socket(";
    "connect(";
    "bind(";
    "listen(";
    "accept(";
    "send(";
    "recv(";
    "sendto(";
    "recvfrom(";
    "CFNetworkExecuteProxyAutoConfigurationURL";
    "CFNetworkCopyProxiesForURL";
    "CFHTTPMessage";
    "CFHTTPStream";
    "SCNetworkReachability";
    "NSNetService";
    "NSStream";
    "CFStream";
    "CFReadStream";
    "CFWriteStream" ].

Definition forbidden_imports : list string :=
  [ "import Network";
    "import CFNetwork";
    "@import Network";
    "@import CFNetwork";
    "#import <CFNetwork/";
    "#import <Network/";
    "URLSession";
    "NSURLSession";
    "NSURLConnection" ].

Definition source_dirs : list string :=
  [ "WhisperApp/WhisperApp"; "WhisperApp/Tests" ].

Definition source_extensions : list string :=
  [ ".swift"; ".m"; ".mm"; ".h" ].

(** ** The operating system as seen by the script *)

(** A Python exception below [Exception], kept as the text [str(e)]. *)
Definition exn := string.

(** The [CompletedProcess] fields the script reads. *)
Record completed := { returncode : Z; stdout : string }.

Record world := {
  (** [os.path.exists(path)] *)
  path_exists : string -> bool;
  (** [os.walk(top)]: the [(root, dirs, files)] triples in the order the
      generator yields them.  A directory that cannot be listed yields
      nothing; the listing order is the one the file system reports. *)
  walk : string -> list (string * list string * list string);
  (** [open(path, 'r', encoding='utf-8').read()]: the text, or the
      exception raised by opening or decoding. *)
  read_text : string -> exn + string;
  (** [subprocess.run(argv, capture_output=True, text=True, check=False)]:
      the completed process, or the exception raised by the spawn. *)
  run_process : list string -> exn + completed
}.

(** ** The monad of the script *)

Inductive event :=
| EvPrint (line : string)
| EvRun (argv : list string)
| EvOpen (path : string).

Inductive outcome (A : Type) :=
| Val (a : A)
| Raised (e : exn)
| SysExit (code : Z).
Arguments Val {A} a.
Arguments Raised {A} e.
Arguments SysExit {A} code.

(** A computation over a mutable local of type [S]: from the local's value
    to the events emitted, the local's new value and the outcome.  The local
    keeps its mutations when an exception is raised, as a Python list does. *)
Definition M (S A : Type) : Type := S -> list event * S * outcome A.

Definition ret {S A} (a : A) : M S A := fun s => ([], s, Val a).

Definition bind {S A B} (m : M S A) (k : A -> M S B) : M S B :=
  fun s =>
    match m s with
    | (t1, s1, Val a) =>
        match k a s1 with (t2, s2, r) => (t1 ++ t2, s2, r) end
    | (t1, s1, Raised e) => (t1, s1, Raised e)
    | (t1, s1, SysExit c) => (t1, s1, SysExit c)
    end.

Declare Scope py_scope.
Delimit Scope py_scope with py.
Notation "x <- c1 ;; c2" := (bind c1 (fun x => c2))
  (at level 61, c1 at next level, right associativity) : py_scope.
Notation "c1 ;; c2" := (bind c1 (fun _ => c2))
  (at level 61, right associativity) : py_scope.
Open Scope py_scope.

Definition emit {S} (e : event) : M S unit := fun s => ([e], s, Val tt).
Definition print {S} (line : string) : M S unit := emit (EvPrint line).
Definition raise {S A} (e : exn) : M S A := fun s => ([], s, Raised e).
Definition sys_exit {S A} (code : Z) : M S A := fun s => ([], s, SysExit code).
Definition pass {S} : M S unit := ret tt.
Definition get {S} : M S S := fun s => ([], s, Val s).
Definition put {S} (s : S) : M S unit := fun _ => ([], s, Val tt).

(** [xs.append(x)] on the local list. *)
Definition append {X} (x : X) : M (list X) unit :=
  fun xs => ([], xs ++ [x], Val tt).

(** [try: body except Exception as e: handler(e)].  [SystemExit] is not an
    [Exception] and passes through. *)
Definition try_except {S A} (body : M S A) (handler : exn -> M S A) : M S A :=
  fun s =>
    match body s with
    | (t1, s1, Raised e) =>
        match handler e s1 with (t2, s2, r) => (t1 ++ t2, s2, r) end
    | other => other
    end.

(** [for x in xs: body(x)] *)
Fixpoint for_each {S X} (xs : list X) (body : X -> M S unit) : M S unit :=
  match xs with
  | [] => ret tt
  | x :: rest => body x ;; for_each rest body
  end.

(** A call: the callee runs on a local of its own, which is dropped on
    return. *)
Definition call {S S' A} (callee : M S' A) (init : S') : M S A :=
  fun s => match callee init with (t, _, r) => (t, s, r) end.

(** ** The system calls, lifted *)

Section Script.

Variable w : world.

Definition os_path_exists {S} (path : string) : M S bool :=
  ret (path_exists w path).

Definition os_walk (top : string) : list (string * list string * list string) :=
  walk w top.

Definition open_read {S} (path : string) : M S string :=
  emit (EvOpen path) ;;
  match read_text w path with
  | inl e => raise e
  | inr text => ret text
  end.

Definition subprocess_run {S} (argv : list string) : M S completed :=
  emit (EvRun argv) ;;
  match run_process w argv with
  | inl e => raise e
  | inr result => ret result
  end.


(** ** The script *)

Definition nl : string := String (ascii_of_nat 10) EmptyString.

(** Truth value of a list: empty lists are false. *)
Definition nonempty {X} (xs : list X) : bool :=
  match xs with [] => false | _ :: _ => true end.

(** [check_binary_for_symbols(binary_path)]; the local is [found_symbols]. *)
Definition check_binary_for_symbols (binary_path : string)
  : M (list string) bool :=
  present <- os_path_exists binary_path ;;
  if negb present then
    print ("Warning: Binary not found at " +++ binary_path) ;;
    ret true
  else
    try_except
      (result <- subprocess_run ["nm"; "-D"; binary_path] ;;
       result <- (if negb (returncode result =? 0)%Z
                  then subprocess_run ["objdump"; "-t"; binary_path]
                  else ret result) ;;
       if negb (returncode result =? 0)%Z then
         print ("Warning: Could not analyze binary " +++ binary_path) ;;
         ret true
       else
         let symbols_output := stdout result in
         put [] ;;
         for_each FORBIDDEN_SYMBOLS (fun symbol =>
           if PyStr.contains symbols_output symbol
           then append symbol
           else pass) ;;
         found_symbols <- get ;;
         if nonempty found_symbols then
           print "❌ NETWORKING SYMBOLS DETECTED!" ;;
           print "The following forbidden networking symbols were found:" ;;
           for_each found_symbols (fun symbol => print ("  - " +++ symbol)) ;;
           print (nl +++ "Whisper must be completely offline. Remove all networking code.") ;;
           ret false
         else
           print "✅ No forbidden networking symbols detected" ;;
           ret true)
      (fun e =>
         print ("Error checking symbols: " +++ e) ;;
         ret true).

(** The body of the innermost loop of [check_source_code]: one file name
    of one [(root, dirs, files)] triple. *)
Definition scan_file (root file : string) : M (list string) unit :=
  if PyStr.endswith_any file source_extensions then
    let file_path := os_path_join root file in
    try_except
      (content <- open_read file_path ;;
       for_each forbidden_imports (fun forbidden =>
         if PyStr.contains content forbidden
         then append (file_path +++ ": " +++ forbidden)
         else pass))
      (fun e =>
         print ("Warning: Could not read " +++ file_path +++ ": " +++ e))
  else pass.

(** [check_source_code()]; the local is [found_issues]. *)
Definition check_source_code : M (list string) bool :=
  put [] ;;
  for_each source_dirs (fun source_dir =>
    present <- os_path_exists source_dir ;;
    if negb present then pass
    else
      for_each (os_walk source_dir) (fun '(root, dirs, files) =>
        for_each files (fun file => scan_file root file))) ;;
  found_issues <- get ;;
  if nonempty found_issues then
    print "❌ FORBIDDEN NETWORKING CODE DETECTED!" ;;
    print "The following networking imports/usage were found:" ;;
    for_each found_issues (fun issue => print ("  - " +++ issue)) ;;
    ret false
  else
    print "✅ No forbidden networking imports detected in source code" ;;
    ret true.

(** [main()], with [sys.argv] as [argv]. *)
Definition main (argv : list string) : M unit unit :=
  print "🔍 Checking for networking symbols..." ;;
  source_ok <- call check_source_code [] ;;
  let binary_path := nth_error argv 1 in
  binary_ok <-
    match binary_path with
    | Some path =>
        if PyStr.truthy path
        then call (check_binary_for_symbols path) []
        else
          print "ℹ️  No binary path provided, skipping binary analysis" ;;
          ret true
    | None =>
        print "ℹ️  No binary path provided, skipping binary analysis" ;;
        ret true
    end ;;
  if negb source_ok || negb binary_ok then
    print (nl +++ "🔒 BUILD FAILED: Networking code detected!") ;;
    print "Whisper must be completely offline with no networking capabilities." ;;
    sys_exit 1
  else
    print (nl +++ "✅ All networking checks passed!") ;;
    sys_exit 0.

End Script.

(** ** What a run is observed by *)

Definition events_of {S A} (r : list event * S * outcome A) : list event :=
  fst (fst r).
Definition local_of {S A} (r : list event * S * outcome A) : S :=
  snd (fst r).
Definition outcome_of {S A} (r : list event * S * outcome A) : outcome A :=
  snd r.

(** The processes spawned along a trace, in order. *)
Definition spawned (t : list event) : list (list string) :=
  flat_map (fun e => match e with EvRun argv => [argv] | _ => [] end) t.

(** The lines printed along a trace, in order. *)
Definition printed (t : list event) : list string :=
  flat_map (fun e => match e with EvPrint l => [l] | _ => [] end) t.

Definition nm_argv (binary_path : string) : list string :=
  ["nm"; "-D"; binary_path].
Definition objdump_argv (binary_path : string) : list string :=
  ["objdump"; "-t"; binary_path].

(** The process exits with a non-zero status. *)
Definition exits_nonzero (r : exn + completed) : Prop :=
  exists c, r = inr c /\ returncode c <> 0%Z.

(** ** Closed forms of the loops *)

(** The patterns of [pats] found in [corpus], in the order of [pats]. *)
Definition matched (pats : list string) (corpus : string) : list string :=
  filter (PyStr.contains corpus) pats.

(** The dump the binary scanner ends up matching against, if any: the
    output of [nm -D] when it exits with 0, else that of [objdump -t] when
    [nm] exits non-zero and [objdump] exits with 0. *)
Definition symbol_dump (w : world) (binary_path : string) : option string :=
  match run_process w (nm_argv binary_path) with
  | inl _ => None
  | inr r1 =>
      if (returncode r1 =? 0)%Z then Some (stdout r1)
      else match run_process w (objdump_argv binary_path) with
           | inl _ => None
           | inr r2 =>
               if (returncode r2 =? 0)%Z then Some (stdout r2) else None
           end
  end.

Definition binary_report (found_symbols : list string) : list event :=
  if nonempty found_symbols then
    [EvPrint "❌ NETWORKING SYMBOLS DETECTED!";
     EvPrint "The following forbidden networking symbols were found:"]
    ++ map (fun symbol => EvPrint ("  - " +++ symbol)) found_symbols
    ++ [EvPrint (nl +++ "Whisper must be completely offline. Remove all networking code.")]
  else [EvPrint "✅ No forbidden networking symbols detected"].

(** The Match the source scanner records for a pattern found in a file. *)
Definition issue (file_path forbidden : string) : string :=
  file_path +++ ": " +++ forbidden.

(** A file name the source scanner reads. *)
Definition eligible (file : string) : bool :=
  PyStr.endswith_any file source_extensions.

Definition file_issues (w : world) (root file : string) : list string :=
  if eligible file then
    match read_text w (os_path_join root file) with
    | inr content =>
        map (issue (os_path_join root file)) (matched forbidden_imports content)
    | inl _ => []
    end
  else [].

Definition file_events (w : world) (root file : string) : list event :=
  if eligible file then
    match read_text w (os_path_join root file) with
    | inr _ => [EvOpen (os_path_join root file)]
    | inl e =>
        [EvOpen (os_path_join root file);
         EvPrint ("Warning: Could not read " +++ os_path_join root file
                  +++ ": " +++ e)]
    end
  else [].

(** The [(root, file)] pairs the walk of the source directories visits, in
    the order of the visit. *)
Definition walked_files (w : world) : list (string * string) :=
  flat_map (fun source_dir =>
    if path_exists w source_dir then
      flat_map (fun '(root, _, files) => map (pair root) files)
               (walk w source_dir)
    else []) source_dirs.

Definition source_issues (w : world) : list string :=
  flat_map (fun '(root, file) => file_issues w root file) (walked_files w).

Definition source_events (w : world) : list event :=
  flat_map (fun '(root, file) => file_events w root file) (walked_files w).

Definition source_report (found_issues : list string) : list event :=
  if nonempty found_issues then
    [EvPrint "❌ FORBIDDEN NETWORKING CODE DETECTED!";
     EvPrint "The following networking imports/usage were found:"]
    ++ map (fun i => EvPrint ("  - " +++ i)) found_issues
  else [EvPrint "✅ No forbidden networking imports detected in source code"].

(** The binary path [main] acts on: [sys.argv[1]] when it is there and is
    not the empty string (an empty string is false in [if binary_path:]). *)
Definition binary_arg (argv : list string) : option string :=
  match nth_error argv 1 with
  | Some path => if PyStr.truthy path then Some path else None
  | None => None
  end.

Definition skip_notice : event :=
  EvPrint "ℹ️  No binary path provided, skipping binary analysis".

(** The binary stage of [main]: the scanner's run, or the notice. *)
Definition binary_stage (w : world) (argv : list string)
  : list event * list string * outcome bool :=
  match binary_arg argv with
  | Some path => check_binary_for_symbols w path []
  | None => ([skip_notice], [], Val true)
  end.

Definition verdict_report (overall : bool) : list event :=
  if overall then [EvPrint (nl +++ "✅ All networking checks passed!")]
  else
    [EvPrint (nl +++ "🔒 BUILD FAILED: Networking code detected!");
     EvPrint "Whisper must be completely offline with no networking capabilities."].

(** The value an outcome returns, when it returns one. *)
Definition returned {A} (o : outcome A) : option A :=
  match o with Val a => Some a | _ => None end.

(** The code the process exits with, when it exits through [sys.exit]. *)
Definition exit_code {A} (o : outcome A) : option Z :=
  match o with SysExit c => Some c | _ => None end.

(** ** What the source scan visits and what violates the policy *)

(** [file] is listed under [root] by the walk of a source directory that
    exists. *)
Definition visited (w : world) (root file : string) : Prop :=
  exists source_dir dirs files,
    In source_dir source_dirs /\
    path_exists w source_dir = true /\
    In (root, dirs, files) (walk w source_dir) /\
    In file files.

(** A visited, eligible file that could be read holds [pat]. *)
Definition source_violation (w : world) (root file pat : string) : Prop :=
  visited w root file /\
  eligible file = true /\
  exists content,
    read_text w (os_path_join root file) = inr content /\
    In pat forbidden_imports /\
    PyStr.substring_of pat content.

(** The dump that was obtained holds [pat]. *)
Definition binary_violation (w : world) (binary_path pat : string) : Prop :=
  path_exists w binary_path = true /\
  exists dump,
    symbol_dump w binary_path = Some dump /\
    In pat FORBIDDEN_SYMBOLS /\
    PyStr.substring_of pat dump.

(** [x] stands before [y] in [xs]. *)
Definition precedes {X} (x y : X) (xs : list X) : Prop :=
  exists a b c, xs = a ++ x :: b ++ y :: c.

(** ** Comparing two worlds *)

(** The operating system gives the same answer to every call. *)
Definition same_answers (w1 w2 : world) : Prop :=
  (forall path, path_exists w1 path = path_exists w2 path) /\
  (forall top, walk w1 top = walk w2 top) /\
  (forall path, read_text w1 path = read_text w2 path) /\
  (forall argv, run_process w1 argv = run_process w2 argv).

(** Two [(root, dirs, files)] triples list the same directory: the same
    names, in any order. *)
Definition same_listing (t1 t2 : string * list string * list string) : Prop :=
  fst (fst t1) = fst (fst t2) /\
  Permutation (snd (fst t1)) (snd (fst t2)) /\
  Permutation (snd t1) (snd t2).

(** Two walks visit the same directories with the same entries, in any
    order. *)
Definition same_tree (l1 l2 : list (string * list string * list string))
  : Prop :=
  exists l, Forall2 same_listing l1 l /\ Permutation l l2.

(** The same file tree and the same binary: everything is answered alike,
    but for the order in which directories and their entries are listed. *)
Definition same_contents (w1 w2 : world) : Prop :=
  (forall path, path_exists w1 path = path_exists w2 path) /\
  (forall top, same_tree (walk w1 top) (walk w2 top)) /\
  (forall path, read_text w1 path = read_text w2 path) /\
  (forall argv, run_process w1 argv = run_process w2 argv).

(** The spec's reading of determinism: the same contents give the same
    Match sequence. *)
Definition match_order_fixed_by_contents : Prop :=
  forall w1 w2,
    same_contents w1 w2 ->
    local_of (check_source_code w1 []) = local_of (check_source_code w2 []).

(** ** The two lists as a registry *)

(** The spec's reading: no literal is in both lists. *)
Definition registries_disjoint : Prop :=
  forall pat, In pat FORBIDDEN_SYMBOLS -> In pat forbidden_imports -> False.

Definition shared_patterns : list string :=
  [ "URLSession"; "NSURLSession"; "NSURLConnection" ].

Definition memb (x : string) (xs : list string) : bool :=
  existsb (String.eqb x) xs.

Fixpoint nodupb (xs : list string) : bool :=
  match xs with
  | [] => true
  | x :: rest => negb (memb x rest) && nodupb rest
  end.

(** ** Sample worlds *)

Definition app_dir : string := "WhisperApp/WhisperApp".
Definition app_binary : string := "build/Whisper".

Definition sample_read (path : string) : exn + string :=
  if String.eqb path "WhisperApp/WhisperApp/Net.swift" then
    inr "import Network; let s = URLSession.shared"
  else if String.eqb path "WhisperApp/WhisperApp/Api.m" then
    inr "#import <CFNetwork/CFNetwork.h>"
  else if String.eqb path "WhisperApp/WhisperApp/Clean.swift" then
    inr "import Foundation"
  else if String.eqb path "WhisperApp/WhisperApp/Locked.h" then
    inl "[Errno 13] Permission denied"
  else inl "[Errno 2] No such file or directory".

(** One source directory with the given listing, and a binary inspected by
    the given tools. *)
Definition sample_world (listing : list string)
           (tools : list string -> exn + completed) : world :=
  {| path_exists := fun path =>
       String.eqb path app_dir || String.eqb path app_binary;
     walk := fun top =>
       if String.eqb top app_dir then [(top, [], listing)] else [];
     read_text := sample_read;
     run_process := tools |}.

Definition is_nm (argv : list string) : bool :=
  match argv with tool :: _ => String.eqb tool "nm" | [] => false end.

(** [nm] succeeds with the given dump. *)
Definition tools_nm (dump : string) (argv : list string) : exn + completed :=
  if is_nm argv then inr {| returncode := 0; stdout := dump |}
  else inr {| returncode := 1; stdout := "" |}.

(** [nm] exits with 1, [objdump] succeeds with the given dump. *)
Definition tools_objdump (dump : string) (argv : list string)
  : exn + completed :=
  if is_nm argv then inr {| returncode := 1; stdout := "" |}
  else inr {| returncode := 0; stdout := dump |}.

(** Both tools exit with 1. *)
Definition tools_failing (argv : list string) : exn + completed :=
  inr {| returncode := 1; stdout := "" |}.

(** [nm] is not installed; [objdump] would succeed with the given dump. *)
Definition tools_no_nm (dump : string) (argv : list string)
  : exn + completed :=
  if is_nm argv then inl "[Errno 2] No such file or directory: 'nm'"
  else inr {| returncode := 0; stdout := dump |}.

(** Two listings of the same directory, in two orders. *)
Definition world_net_first : world :=
  sample_world ["Net.swift"; "Api.m"] tools_failing.
Definition world_api_first : world :=
  sample_world ["Api.m"; "Net.swift"] tools_failing.

(** ** Further observations of a run *)

(** The files opened along a trace, in order. *)
Definition opened (t : list event) : list string :=
  flat_map (fun e => match e with EvOpen path => [path] | _ => [] end) t.

(** The visited files the source scanner reads: those with an eligible
    name, in the order of the visit. *)
Definition eligible_visits (w : world) : list (string * string) :=
  filter (fun '(_, file) => eligible file) (walked_files w).

(** The warning printed for a visited file: one line when the file is
    eligible and cannot be read. *)
Definition file_warnings (w : world) (root file : string) : list string :=
  if eligible file then
    match read_text w (os_path_join root file) with
    | inl e =>
        ["Warning: Could not read " +++ os_path_join root file
         +++ ": " +++ e]
    | inr _ => []
    end
  else [].

(** The lines a source scan ends with, for the Matches it found. *)
Definition source_report_lines (found_issues : list string) : list string :=
  if nonempty found_issues then
    ["❌ FORBIDDEN NETWORKING CODE DETECTED!";
     "The following networking imports/usage were found:"]
    ++ map (fun i => "  - " +++ i) found_issues
  else ["✅ No forbidden networking imports detected in source code"].

(** The lines a binary scan ends with, for the symbols it found. *)
Definition binary_report_lines (found_symbols : list string) : list string :=
  if nonempty found_symbols then
    ["❌ NETWORKING SYMBOLS DETECTED!";
     "The following forbidden networking symbols were found:"]
    ++ map (fun symbol => "  - " +++ symbol) found_symbols
    ++ [nl +++ "Whisper must be completely offline. Remove all networking code."]
  else ["✅ No forbidden networking symbols detected"].

(** [p1] and [p2] cannot end the same Match line: with [p1] the shorter,
    [": " + p2] does not end with [": " + p1]. *)
Definition match_lines_apart (p1 p2 : string) : bool :=
  if (String.length p1 <? String.length p2)%nat then
    negb (String.eqb
            (String.substring (String.length p2 - String.length p1)
                              (String.length (": " +++ p1))
                              (": " +++ p2))
            (": " +++ p1))
  else true.

(** A tree in which no source directory exists, whatever a walk of one
    would list. *)
Definition world_elsewhere : world :=
  {| path_exists := fun _ => false;
     walk := fun top => [(top, [], ["Net.swift"])];
     read_text := sample_read;
     run_process := tools_failing |}.

(** * Properties *)

(** ** Strings *)

Lemma prefix_app (p s : string) :
  String.prefix p s = true <-> exists rest, s = p +++ rest.
Proof.
  revert s; induction p as [|a p IH]; intros s; simpl.
  - destruct s; simpl; split; eauto.
  - destruct s as [|b s]; simpl.
    + split; [discriminate | intros [rest H]; discriminate].
    + destruct (ascii_dec a b) as [->|Hne].
      * rewrite IH. split; intros [rest H]; exists rest.
        -- now subst.
        -- now inversion H.
      * split; [discriminate | intros [rest H]; inversion H; congruence].
Qed.

Lemma contains_substring (s pat : string) :
  PyStr.contains s pat = true <-> PyStr.substring_of pat s.
Proof.
  unfold PyStr.substring_of.
  induction s as [|c s IH]; cbn [PyStr.contains].
  - rewrite orb_false_r, prefix_app. split.
    + intros [rest H]. exists EmptyString, rest. exact H.
    + intros [[|b before] [after H]]; simpl in H; [eauto | discriminate].
  - rewrite orb_true_iff, prefix_app, IH. split.
    + intros [[rest H] | (before & after & H)].
      * exists EmptyString, rest. exact H.
      * exists (String c before), after. simpl. now rewrite H.
    + intros [[|b before] [after H]]; simpl in H.
      * left. eauto.
      * right. inversion H. eauto.
Qed.

Lemma append_assoc (a b c : string) : (a +++ b) +++ c = a +++ b +++ c.
Proof. induction a; simpl; congruence. Qed.

Lemma append_inj_l (a b c : string) : a +++ b = a +++ c -> b = c.
Proof. induction a; simpl; intros H; [exact H | inversion H; auto]. Qed.

Lemma issue_inj (file_path p q : string) :
  issue file_path p = issue file_path q -> p = q.
Proof.
  unfold issue. intros H.
  apply append_inj_l in H. now apply append_inj_l in H.
Qed.

(** ** Lists *)

Lemma flat_map_nil {X Y} (xs : list X) :
  flat_map (fun _ : X => @nil Y) xs = [].
Proof. induction xs; simpl; auto. Qed.

Lemma flat_map_flat_map {X Y Z} (f : X -> list Y) (g : Y -> list Z) xs :
  flat_map g (flat_map f xs) = flat_map (fun x => flat_map g (f x)) xs.
Proof.
  induction xs as [|x xs IH]; simpl; [reflexivity|].
  now rewrite flat_map_app, IH.
Qed.

Lemma flat_map_map {X Y Z} (f : X -> Y) (g : Y -> list Z) xs :
  flat_map g (map f xs) = flat_map (fun x => g (f x)) xs.
Proof. induction xs as [|x xs IH]; simpl; congruence. Qed.

Lemma flat_map_filter_map {X Y} (keep : X -> bool) (f : X -> Y) xs :
  flat_map (fun x => if keep x then [f x] else []) xs = map f (filter keep xs).
Proof.
  induction xs as [|x xs IH]; simpl; [reflexivity|].
  destruct (keep x); simpl; congruence.
Qed.

Lemma flat_map_split {X Y} (f : X -> list Y) xs x :
  In x xs ->
  exists before after,
    xs = before ++ x :: after /\
    flat_map f xs = flat_map f before ++ f x ++ flat_map f after.
Proof.
  intros Hin. destruct (in_split _ _ Hin) as (before & after & ->).
  exists before, after. split; [reflexivity|].
  now rewrite flat_map_app.
Qed.

Lemma nonempty_false {X} (xs : list X) : nonempty xs = false <-> xs = [].
Proof. destruct xs; simpl; split; congruence. Qed.

Lemma nonempty_true {X} (xs : list X) :
  nonempty xs = true <-> exists x, In x xs.
Proof.
  destruct xs as [|x xs]; simpl; split; try congruence.
  - intros [x []].
  - eauto.
Qed.

(** ** Loops of the monad *)

Lemma for_each_collect {X Y} (body : X -> M (list Y) unit)
      (ev : X -> list event) (out : X -> list Y) :
  (forall x s, body x s = (ev x, s ++ out x, Val tt)) ->
  forall xs s,
    for_each xs body s = (flat_map ev xs, s ++ flat_map out xs, Val tt).
Proof.
  intros Hbody. induction xs as [|x xs IH]; intros s; simpl.
  - unfold ret. now rewrite app_nil_r.
  - unfold bind. rewrite Hbody, IH. now rewrite <- app_assoc.
Qed.

Lemma for_each_print {S X} (line : X -> string) xs (s : S) :
  for_each xs (fun x => print (line x)) s
  = (map (fun x => EvPrint (line x)) xs, s, Val tt).
Proof.
  revert s. induction xs as [|x xs IH]; intros s; simpl; [reflexivity|].
  unfold bind, print, emit. now rewrite IH.
Qed.

Lemma print_then {S A} (line : string) (m : M S A) s :
  (print line ;; m) s
  = (EvPrint line :: events_of (m s), local_of (m s), outcome_of (m s)).
Proof.
  unfold bind, print, emit. now destruct (m s) as [[t s'] []].
Qed.

Lemma for_each_print_then {S X A} (line : X -> string) xs (m : M S A) s :
  (for_each xs (fun x => print (line x)) ;; m) s
  = (map (fun x => EvPrint (line x)) xs ++ events_of (m s),
     local_of (m s), outcome_of (m s)).
Proof.
  unfold bind. rewrite for_each_print. now destruct (m s) as [[t s'] []].
Qed.

(** The pattern loop shared by both scanners: every pattern found in the
    corpus is appended, in the order of the list, and nothing else. *)
Lemma pattern_loop (corpus : string) (fmt : string -> string) pats s :
  for_each pats (fun pat =>
    if PyStr.contains corpus pat then append (fmt pat) else pass) s
  = ([], s ++ map fmt (matched pats corpus), Val tt).
Proof.
  rewrite (for_each_collect _ (fun _ => [])
             (fun pat => if PyStr.contains corpus pat then [fmt pat] else [])).
  - now rewrite flat_map_nil, flat_map_filter_map.
  - intros pat s'. destruct (PyStr.contains corpus pat); unfold append, pass, ret.
    + reflexivity.
    + now rewrite app_nil_r.
Qed.

Lemma symbol_loop (dump : string) s :
  for_each FORBIDDEN_SYMBOLS (fun symbol =>
    if PyStr.contains dump symbol then append symbol else pass) s
  = ([], s ++ matched FORBIDDEN_SYMBOLS dump, Val tt).
Proof.
  pose proof (pattern_loop dump (fun x => x) FORBIDDEN_SYMBOLS s) as H.
  cbv beta in H. now rewrite map_id in H.
Qed.

(** ** The binary scanner in closed form *)

(** Lines 60-77: matching a dump that was obtained, and reporting. *)
Lemma match_dump (dump : string) s :
  (put [] ;;
   for_each FORBIDDEN_SYMBOLS (fun symbol =>
     if PyStr.contains dump symbol then append symbol else pass) ;;
   found_symbols <- get ;;
   if nonempty found_symbols then
     print "❌ NETWORKING SYMBOLS DETECTED!" ;;
     print "The following forbidden networking symbols were found:" ;;
     for_each found_symbols (fun symbol => print ("  - " +++ symbol)) ;;
     print (nl +++ "Whisper must be completely offline. Remove all networking code.") ;;
     ret false
   else
     print "✅ No forbidden networking symbols detected" ;;
     ret true) s
  = (binary_report (matched FORBIDDEN_SYMBOLS dump),
     matched FORBIDDEN_SYMBOLS dump,
     Val (negb (nonempty (matched FORBIDDEN_SYMBOLS dump)))).
Proof.
  unfold bind at 1 2 3. unfold put, get. rewrite symbol_loop. cbn [app].
  unfold binary_report.
  destruct (nonempty (matched FORBIDDEN_SYMBOLS dump)) eqn:Hne.
  - rewrite !print_then, for_each_print_then, print_then. reflexivity.
  - rewrite print_then. reflexivity.
Qed.

Lemma check_binary_for_symbols_spec (w : world) (binary_path : string) s :
  check_binary_for_symbols w binary_path s =
  if negb (path_exists w binary_path) then
    ([EvPrint ("Warning: Binary not found at " +++ binary_path)], s, Val true)
  else
    match run_process w (nm_argv binary_path) with
    | inl e =>
        ([EvRun (nm_argv binary_path);
          EvPrint ("Error checking symbols: " +++ e)], s, Val true)
    | inr r1 =>
        if (returncode r1 =? 0)%Z then
          (EvRun (nm_argv binary_path)
             :: binary_report (matched FORBIDDEN_SYMBOLS (stdout r1)),
           matched FORBIDDEN_SYMBOLS (stdout r1),
           Val (negb (nonempty (matched FORBIDDEN_SYMBOLS (stdout r1)))))
        else
          match run_process w (objdump_argv binary_path) with
          | inl e =>
              ([EvRun (nm_argv binary_path);
                EvRun (objdump_argv binary_path);
                EvPrint ("Error checking symbols: " +++ e)], s, Val true)
          | inr r2 =>
              if (returncode r2 =? 0)%Z then
                (EvRun (nm_argv binary_path)
                   :: EvRun (objdump_argv binary_path)
                   :: binary_report (matched FORBIDDEN_SYMBOLS (stdout r2)),
                 matched FORBIDDEN_SYMBOLS (stdout r2),
                 Val (negb (nonempty (matched FORBIDDEN_SYMBOLS (stdout r2)))))
              else
                ([EvRun (nm_argv binary_path);
                  EvRun (objdump_argv binary_path);
                  EvPrint ("Warning: Could not analyze binary "
                           +++ binary_path)], s, Val true)
          end
    end.
Proof.
  unfold check_binary_for_symbols.
  unfold bind at 1. unfold os_path_exists, ret at 1.
  destruct (path_exists w binary_path); cbn [negb app]; [|reflexivity].
  unfold try_except, subprocess_run.
  unfold bind at 1 2. unfold emit.
  change ["nm"; "-D"; binary_path] with (nm_argv binary_path).
  change ["objdump"; "-t"; binary_path] with (objdump_argv binary_path).
  destruct (run_process w (nm_argv binary_path)) as [e|r1]; [reflexivity|].
  unfold ret at 1. cbn [app].
  unfold bind at 1.
  destruct (returncode r1 =? 0)%Z eqn:Hrc1; cbn [negb].
  - unfold ret at 1. rewrite Hrc1. cbn [negb].
    cbv zeta. rewrite match_dump. reflexivity.
  - unfold bind at 1.
    destruct (run_process w (objdump_argv binary_path)) as [e|r2];
      [reflexivity|].
    unfold ret at 1. cbn [app].
    destruct (returncode r2 =? 0)%Z eqn:Hrc2; cbn [negb].
    + cbv zeta. rewrite match_dump. reflexivity.
    + reflexivity.
Qed.

(** ** The source scanner in closed form *)

Lemma scan_file_spec (w : world) (root file : string) s :
  scan_file w root file s
  = (file_events w root file, s ++ file_issues w root file, Val tt).
Proof.
  unfold scan_file, file_events, file_issues, eligible.
  destruct (PyStr.endswith_any file source_extensions).
  2:{ unfold pass, ret. now rewrite app_nil_r. }
  cbv zeta. unfold try_except, open_read.
  unfold bind at 1 2. unfold emit.
  destruct (read_text w (os_path_join root file)) as [e|content].
  - unfold raise, print, emit. cbn [app]. now rewrite app_nil_r.
  - unfold ret at 1. cbn [app].
    rewrite (pattern_loop content
               (fun forbidden => os_path_join root file +++ ": " +++ forbidden)).
    reflexivity.
Qed.

Lemma walk_loop (w : world) (triples : list (string * list string * list string)) s :
  for_each triples (fun '(root, dirs, files) =>
    for_each files (fun file => scan_file w root file)) s
  = (flat_map (fun '(root, file) => file_events w root file)
       (flat_map (fun '(root, _, files) => map (pair root) files) triples),
     s ++ flat_map (fun '(root, file) => file_issues w root file)
       (flat_map (fun '(root, _, files) => map (pair root) files) triples),
     Val tt).
Proof.
  rewrite !flat_map_flat_map.
  apply for_each_collect. intros [[root dirs] files] s'.
  rewrite !flat_map_map.
  apply for_each_collect. intros file s''. apply scan_file_spec.
Qed.

Lemma source_dirs_loop (w : world) s :
  for_each source_dirs (fun source_dir =>
    present <- os_path_exists w source_dir ;;
    if negb present then pass
    else
      for_each (os_walk w source_dir) (fun '(root, dirs, files) =>
        for_each files (fun file => scan_file w root file))) s
  = (source_events w, s ++ source_issues w, Val tt).
Proof.
  unfold source_events, source_issues, walked_files.
  rewrite !flat_map_flat_map.
  apply for_each_collect. intros source_dir s'.
  unfold bind, os_path_exists, ret, os_walk.
  destruct (path_exists w source_dir); cbn [negb].
  - rewrite walk_loop. reflexivity.
  - unfold pass, ret. cbn. now rewrite app_nil_r.
Qed.

Lemma check_source_code_spec (w : world) s :
  check_source_code w s
  = (source_events w ++ source_report (source_issues w),
     source_issues w,
     Val (negb (nonempty (source_issues w)))).
Proof.
  unfold check_source_code.
  unfold bind at 1 2. unfold put.
  rewrite source_dirs_loop. cbn [app].
  unfold bind at 1. unfold get.
  unfold source_report.
  destruct (nonempty (source_issues w)).
  - rewrite !print_then. unfold bind. rewrite for_each_print.
    unfold ret. cbn [events_of local_of outcome_of fst snd negb app].
    now rewrite app_nil_r.
  - rewrite print_then. cbn. now rewrite app_nil_r.
Qed.

(** ** The binary scanner always returns *)

Lemma check_binary_for_symbols_returns (w : world) (binary_path : string) s :
  exists passed,
    outcome_of (check_binary_for_symbols w binary_path s) = Val passed.
Proof.
  rewrite check_binary_for_symbols_spec.
  destruct (path_exists w binary_path); cbn [negb]; [|eexists; reflexivity].
  destruct (run_process w (nm_argv binary_path)) as [e|r1];
    [eexists; reflexivity|].
  destruct (returncode r1 =? 0)%Z; [eexists; reflexivity|].
  destruct (run_process w (objdump_argv binary_path)) as [e|r2];
    [eexists; reflexivity|].
  destruct (returncode r2 =? 0)%Z; eexists; reflexivity.
Qed.

Lemma binary_stage_returns (w : world) (argv : list string) :
  exists passed, outcome_of (binary_stage w argv) = Val passed.
Proof.
  unfold binary_stage. destruct (binary_arg argv).
  - apply check_binary_for_symbols_returns.
  - now exists true.
Qed.

(** ** [main] in closed form *)

Lemma main_spec (w : world) (argv : list string) source_passed binary_passed :
  outcome_of (check_source_code w []) = Val source_passed ->
  outcome_of (binary_stage w argv) = Val binary_passed ->
  main w argv tt
  = (EvPrint "🔍 Checking for networking symbols..."
       :: events_of (check_source_code w [])
       ++ events_of (binary_stage w argv)
       ++ verdict_report (source_passed && binary_passed),
     tt,
     SysExit (if source_passed && binary_passed then 0%Z else 1%Z)).
Proof.
  intros Hsrc Hbin. unfold main. rewrite print_then.
  assert (Hstage :
    (match nth_error argv 1 with
     | Some path =>
         if PyStr.truthy path
         then call (S:=unit) (check_binary_for_symbols w path) []
         else
           print "ℹ️  No binary path provided, skipping binary analysis" ;;
           ret true
     | None =>
         print "ℹ️  No binary path provided, skipping binary analysis" ;;
         ret true
     end) tt
    = (events_of (binary_stage w argv), tt, Val binary_passed)).
  { unfold binary_stage, binary_arg in *.
    destruct (nth_error argv 1) as [path|].
    - destruct (PyStr.truthy path).
      + unfold call.
        destruct (check_binary_for_symbols w path []) as [[t s'] o].
        cbn in Hbin |- *. now subst.
      + cbn in Hbin |- *. unfold skip_notice. congruence.
    - cbn in Hbin |- *. unfold skip_notice. congruence. }
  match goal with
  | |- context [events_of (?rest tt)] =>
      assert (Hrest :
        rest tt
        = (events_of (check_source_code w [])
             ++ events_of (binary_stage w argv)
             ++ verdict_report (source_passed && binary_passed),
           tt,
           SysExit (if source_passed && binary_passed then 0%Z else 1%Z)))
  end.
  { unfold bind at 1. unfold call at 1.
    destruct (check_source_code w []) as [[ts ss] os]. cbn in Hsrc. subst os.
    cbv zeta. unfold bind at 1. rewrite Hstage.
    unfold verdict_report.
    destruct source_passed, binary_passed; cbn [negb orb andb];
      rewrite ?print_then; cbn; now rewrite <- ?app_assoc. }
  rewrite Hrest. reflexivity.
Qed.

(** ** The registry (C1) *)

Lemma memb_In (x : string) xs : memb x xs = true <-> In x xs.
Proof.
  unfold memb. rewrite existsb_exists. split.
  - intros (y & Hin & Heq). apply String.eqb_eq in Heq. now subst.
  - intros Hin. exists x. split; [exact Hin | apply String.eqb_refl].
Qed.

Lemma nodupb_NoDup xs : nodupb xs = true -> NoDup xs.
Proof.
  induction xs as [|x xs IH]; simpl; intros H; constructor.
  - apply andb_prop in H as [H _]. rewrite <- memb_In.
    now destruct (memb x xs).
  - apply IH. now apply andb_prop in H as [_ H].
Qed.

(** C1, as the spec states it, fails: the two lists are not disjoint,
    [URLSession] is in both. *)
Lemma registries_not_disjoint : ~ registries_disjoint.
Proof.
  intros H. apply (H "URLSession"); rewrite <- memb_In; reflexivity.
Qed.

(** C1, amended: neither list repeats a literal, and the literals that are
    in both lists are exactly [URLSession], [NSURLSession] and
    [NSURLConnection]; every other literal is in one list only. *)
Theorem registries_share_three :
  NoDup FORBIDDEN_SYMBOLS /\
  NoDup forbidden_imports /\
  forall pat,
    In pat FORBIDDEN_SYMBOLS /\ In pat forbidden_imports
    <-> In pat shared_patterns.
Proof.
  split; [now apply nodupb_NoDup|].
  split; [now apply nodupb_NoDup|].
  intros pat.
  change shared_patterns
    with (filter (fun x => memb x forbidden_imports) FORBIDDEN_SYMBOLS).
  rewrite filter_In, memb_In. reflexivity.
Qed.

(** ** The binary scanner (C2, C3, C10) *)

Lemma exits_nonzero_inl (e : exn) : ~ exits_nonzero (inl e).
Proof. intros (c & H & _). discriminate. Qed.

Lemma exits_nonzero_inr (r : completed) :
  exits_nonzero (inr r) <-> (returncode r =? 0)%Z = false.
Proof.
  unfold exits_nonzero. rewrite Z.eqb_neq. split.
  - intros (c & H & Hc). now inversion H; subst.
  - intros Hc. now exists r.
Qed.

Lemma spawned_app (t1 t2 : list event) :
  spawned (t1 ++ t2) = spawned t1 ++ spawned t2.
Proof. apply flat_map_app. Qed.

Lemma spawned_prints {X} (line : X -> string) xs :
  spawned (map (fun x => EvPrint (line x)) xs) = [].
Proof. induction xs; simpl; auto. Qed.

Lemma spawned_binary_report found : spawned (binary_report found) = [].
Proof.
  unfold binary_report. destruct (nonempty found); [|reflexivity].
  now rewrite !spawned_app, spawned_prints.
Qed.

Lemma nm_is_not_objdump (p q : string) : nm_argv p <> objdump_argv q.
Proof. discriminate. Qed.

(** The processes the scanner spawns for a path that exists: [nm], and
    then [objdump] exactly when [nm] ran and exited non-zero. *)
Lemma spawned_by_scanner (w : world) (binary_path : string) s :
  path_exists w binary_path = true ->
  spawned (events_of (check_binary_for_symbols w binary_path s))
  = match run_process w (nm_argv binary_path) with
    | inl _ => [nm_argv binary_path]
    | inr r1 =>
        if (returncode r1 =? 0)%Z then [nm_argv binary_path]
        else [nm_argv binary_path; objdump_argv binary_path]
    end.
Proof.
  intros Hex. rewrite check_binary_for_symbols_spec, Hex. cbn [negb].
  destruct (run_process w (nm_argv binary_path)) as [e|r1]; [reflexivity|].
  destruct (returncode r1 =? 0)%Z.
  - cbn [events_of fst]. change (EvRun ?a :: ?t) with ([EvRun a] ++ t).
    now rewrite spawned_app, spawned_binary_report.
  - destruct (run_process w (objdump_argv binary_path)) as [e|r2];
      [reflexivity|].
    destruct (returncode r2 =? 0)%Z; [|reflexivity].
    cbn [events_of fst].
    change (EvRun ?a :: EvRun ?b :: ?t) with ([EvRun a; EvRun b] ++ t).
    now rewrite spawned_app, spawned_binary_report.
Qed.

(** C2: for a binary path that exists, the scanner first runs [nm -D]; it
    runs [objdump -t] if and only if [nm] exited with a non-zero status; and
    when both exit non-zero it returns [True] after a warning. *)
Theorem symbol_tool_fallback (w : world) (binary_path : string) s :
  path_exists w binary_path = true ->
  (exists rest,
     events_of (check_binary_for_symbols w binary_path s)
     = EvRun (nm_argv binary_path) :: rest) /\
  (exists later,
     spawned (events_of (check_binary_for_symbols w binary_path s))
     = nm_argv binary_path :: later) /\
  (In (objdump_argv binary_path)
      (spawned (events_of (check_binary_for_symbols w binary_path s)))
   <-> exits_nonzero (run_process w (nm_argv binary_path))) /\
  (exits_nonzero (run_process w (nm_argv binary_path)) ->
   exits_nonzero (run_process w (objdump_argv binary_path)) ->
   check_binary_for_symbols w binary_path s
   = ([EvRun (nm_argv binary_path);
       EvRun (objdump_argv binary_path);
       EvPrint ("Warning: Could not analyze binary " +++ binary_path)],
      s, Val true)).
Proof.
  intros Hex. split; [|split; [|split]].
  - rewrite check_binary_for_symbols_spec, Hex. cbn [negb].
    destruct (run_process w (nm_argv binary_path)) as [e|r1];
      [eexists; reflexivity|].
    destruct (returncode r1 =? 0)%Z; [eexists; reflexivity|].
    destruct (run_process w (objdump_argv binary_path)) as [e|r2];
      [eexists; reflexivity|].
    destruct (returncode r2 =? 0)%Z; eexists; reflexivity.
  - rewrite spawned_by_scanner by exact Hex.
    destruct (run_process w (nm_argv binary_path)) as [e|r1];
      [eexists; reflexivity|].
    destruct (returncode r1 =? 0)%Z; eexists; reflexivity.
  - rewrite spawned_by_scanner by exact Hex.
    destruct (run_process w (nm_argv binary_path)) as [e|r1].
    + split.
      * intros [H|[]]. now apply nm_is_not_objdump in H.
      * intros H. now apply exits_nonzero_inl in H.
    + rewrite exits_nonzero_inr.
      destruct (returncode r1 =? 0)%Z; split; try discriminate.
      * intros [H|[]]. now apply nm_is_not_objdump in H.
      * reflexivity.
      * intros _. right. now left.
  - intros Hnm Hobj. rewrite check_binary_for_symbols_spec, Hex. cbn [negb].
    destruct (run_process w (nm_argv binary_path)) as [e|r1];
      [now apply exits_nonzero_inl in Hnm|].
    apply exits_nonzero_inr in Hnm. rewrite Hnm.
    destruct (run_process w (objdump_argv binary_path)) as [e|r2];
      [now apply exits_nonzero_inl in Hobj|].
    apply exits_nonzero_inr in Hobj. now rewrite Hobj.
Qed.

Lemma symbol_tool_fallback_witness :
  path_exists (sample_world [] tools_failing) app_binary = true /\
  check_binary_for_symbols (sample_world [] tools_failing) app_binary []
  = ([EvRun ["nm"; "-D"; "build/Whisper"];
      EvRun ["objdump"; "-t"; "build/Whisper"];
      EvPrint "Warning: Could not analyze binary build/Whisper"],
     [], Val true).
Proof.
  split; [reflexivity|].
  apply (symbol_tool_fallback (sample_world [] tools_failing) app_binary []).
  - reflexivity.
  - eexists. split; [reflexivity | discriminate].
  - eexists. split; [reflexivity | discriminate].
Defined.

(** C10: when spawning [nm] raises, the scanner prints the error and
    returns [True] without running [objdump], whatever [objdump] would have
    reported; [objdump] runs only after [nm] ran and exited non-zero. *)
Theorem nm_spawn_error_skips_fallback (w : world) (binary_path : string)
        (e : exn) s :
  path_exists w binary_path = true ->
  run_process w (nm_argv binary_path) = inl e ->
  check_binary_for_symbols w binary_path s
  = ([EvRun (nm_argv binary_path);
      EvPrint ("Error checking symbols: " +++ e)], s, Val true) /\
  ~ In (objdump_argv binary_path)
       (spawned (events_of (check_binary_for_symbols w binary_path s))) /\
  forall w' s',
    In (objdump_argv binary_path)
       (spawned (events_of (check_binary_for_symbols w' binary_path s'))) ->
    exists c,
      run_process w' (nm_argv binary_path) = inr c /\ returncode c <> 0%Z.
Proof.
  intros Hex Hnm. split; [|split].
  - now rewrite check_binary_for_symbols_spec, Hex, Hnm.
  - rewrite spawned_by_scanner, Hnm by exact Hex.
    intros [H|[]]. now apply nm_is_not_objdump in H.
  - intros w' s' Hin.
    rewrite check_binary_for_symbols_spec in Hin.
    destruct (path_exists w' binary_path); cbn [negb] in Hin;
      [|now destruct Hin].
    destruct (run_process w' (nm_argv binary_path)) as [e'|r1].
    + destruct Hin as [H|[]]. now apply nm_is_not_objdump in H.
    + exists r1. split; [reflexivity|]. apply Z.eqb_neq.
      destruct (returncode r1 =? 0)%Z; [|reflexivity].
      cbn [events_of fst] in Hin.
      change (EvRun ?a :: ?t) with ([EvRun a] ++ t) in Hin.
      rewrite spawned_app, spawned_binary_report in Hin.
      destruct Hin as [H|[]]. now apply nm_is_not_objdump in H.
Qed.

Lemma nm_spawn_error_skips_fallback_witness :
  (path_exists (sample_world [] (tools_no_nm "U socket(")) app_binary = true /\
   run_process (sample_world [] (tools_no_nm "U socket("))
     (objdump_argv app_binary)
   = inr {| returncode := 0; stdout := "U socket(" |} /\
   matched FORBIDDEN_SYMBOLS "U socket(" = ["socket("]) /\
  check_binary_for_symbols
    (sample_world [] (tools_no_nm "U socket(")) app_binary []
  = ([EvRun ["nm"; "-D"; "build/Whisper"];
      EvPrint "Error checking symbols: [Errno 2] No such file or directory: 'nm'"],
     [], Val true).
Proof.
  split; [repeat split|].
  apply (nm_spawn_error_skips_fallback
           (sample_world [] (tools_no_nm "U socket(")) app_binary
           "[Errno 2] No such file or directory: 'nm'" []);
    reflexivity.
Defined.

(** ** Missing binary and the exit code (C3, C4) *)

Lemma check_source_code_returns (w : world) s :
  outcome_of (check_source_code w s)
  = Val (negb (nonempty (source_issues w))).
Proof. now rewrite check_source_code_spec. Qed.

Lemma main_exit_code (w : world) (argv : list string)
      source_passed binary_passed :
  outcome_of (check_source_code w []) = Val source_passed ->
  outcome_of (binary_stage w argv) = Val binary_passed ->
  outcome_of (main w argv tt)
  = SysExit (if source_passed && binary_passed then 0%Z else 1%Z).
Proof.
  intros Hsrc Hbin. now rewrite (main_spec w argv _ _ Hsrc Hbin).
Qed.

(** C3: for a binary path that does not exist the scanner prints a warning
    and returns [True] at once, spawning no process; [main] then exits
    with 0 exactly when the source scan passed. *)
Theorem missing_binary_passes (w : world) (binary_path : string) s :
  path_exists w binary_path = false ->
  check_binary_for_symbols w binary_path s
  = ([EvPrint ("Warning: Binary not found at " +++ binary_path)], s, Val true)
  /\
  spawned (events_of (check_binary_for_symbols w binary_path s)) = [] /\
  forall argv source_passed,
    nth_error argv 1 = Some binary_path ->
    outcome_of (check_source_code w []) = Val source_passed ->
    outcome_of (main w argv tt)
    = SysExit (if source_passed then 0%Z else 1%Z).
Proof.
  intros Hex.
  assert (Hrun : forall s',
    check_binary_for_symbols w binary_path s'
    = ([EvPrint ("Warning: Binary not found at " +++ binary_path)],
       s', Val true)).
  { intros s'. now rewrite check_binary_for_symbols_spec, Hex. }
  split; [apply Hrun|]. split; [now rewrite Hrun|].
  intros argv source_passed Harg Hsrc.
  rewrite (main_exit_code w argv source_passed true Hsrc).
  - now rewrite andb_true_r.
  - unfold binary_stage, binary_arg. rewrite Harg.
    destruct (PyStr.truthy binary_path); [now rewrite Hrun | reflexivity].
Qed.

Lemma missing_binary_passes_witness :
  path_exists (sample_world ["Net.swift"] tools_failing) "build/Missing"
  = false /\
  check_binary_for_symbols
    (sample_world ["Net.swift"] tools_failing) "build/Missing" []
  = ([EvPrint "Warning: Binary not found at build/Missing"], [], Val true).
Proof.
  split; [reflexivity|].
  apply (missing_binary_passes
           (sample_world ["Net.swift"] tools_failing) "build/Missing" []).
  reflexivity.
Defined.

(** C4: [main] exits with 0 if and only if the source scan passed and the
    binary scan passed, and with 1 otherwise; the binary conjunct is [True]
    when no binary path is given, so the exit code then follows the source
    scan alone.  An empty [sys.argv[1]] counts as no path; the scanner
    would have passed it as well wherever no file has the empty path. *)
Theorem exit_code_is_conjunction (w : world) (argv : list string) :
  exists source_passed binary_passed,
    outcome_of (check_source_code w []) = Val source_passed /\
    match binary_arg argv with
    | Some path =>
        outcome_of (check_binary_for_symbols w path []) = Val binary_passed
    | None => binary_passed = true
    end /\
    outcome_of (main w argv tt)
    = SysExit (if source_passed && binary_passed then 0%Z else 1%Z) /\
    (exit_code (outcome_of (main w argv tt)) = Some 0%Z
     <-> source_passed && binary_passed = true) /\
    (exit_code (outcome_of (main w argv tt)) = Some 1%Z
     <-> source_passed && binary_passed = false) /\
    (nth_error argv 1 = None ->
     outcome_of (main w argv tt)
     = SysExit (if source_passed then 0%Z else 1%Z)) /\
    (nth_error argv 1 = Some EmptyString ->
     path_exists w EmptyString = false ->
     outcome_of (check_binary_for_symbols w EmptyString [])
     = Val binary_passed).
Proof.
  destruct (binary_stage_returns w argv) as [binary_passed Hbin].
  exists (negb (nonempty (source_issues w))), binary_passed.
  pose proof (check_source_code_returns w []) as Hsrc.
  pose proof (main_exit_code w argv _ _ Hsrc Hbin) as Hmain.
  split; [exact Hsrc|].
  split.
  { unfold binary_stage in Hbin. destruct (binary_arg argv).
    - exact Hbin.
    - cbn in Hbin. congruence. }
  split; [exact Hmain|].
  rewrite Hmain.
  split; [|split; [|split]].
  - destruct (_ && _); cbn; split; congruence.
  - destruct (_ && _); cbn; split; congruence.
  - intros Hnone. unfold binary_stage, binary_arg in Hbin.
    rewrite Hnone in Hbin. cbn in Hbin. inversion Hbin.
    now rewrite andb_true_r.
  - intros Hempty Hex. unfold binary_stage, binary_arg in Hbin.
    rewrite Hempty in Hbin. cbn in Hbin. inversion Hbin.
    now rewrite check_binary_for_symbols_spec, Hex.
Qed.

(** ** Matches (C5) *)

Lemma in_matched (pats : list string) (corpus pat : string) :
  In pat (matched pats corpus)
  <-> In pat pats /\ PyStr.substring_of pat corpus.
Proof. unfold matched. now rewrite filter_In, contains_substring. Qed.

Lemma visited_walked (w : world) (root file : string) :
  In (root, file) (walked_files w) <-> visited w root file.
Proof.
  unfold walked_files, visited. rewrite in_flat_map. split.
  - intros (source_dir & Hdir & Hin).
    destruct (path_exists w source_dir) eqn:Hex; [|now destruct Hin].
    apply in_flat_map in Hin as ([[root' dirs] files] & Htriple & Hin).
    apply in_map_iff in Hin as (file' & Heq & Hfile).
    inversion Heq; subst. now exists source_dir, dirs, files.
  - intros (source_dir & dirs & files & Hdir & Hex & Htriple & Hfile).
    exists source_dir. split; [exact Hdir|]. rewrite Hex.
    apply in_flat_map. exists (root, dirs, files). split; [exact Htriple|].
    now apply in_map.
Qed.

Lemma in_file_issues (w : world) (root file m : string) :
  In m (file_issues w root file)
  <-> eligible file = true /\
      exists content pat,
        read_text w (os_path_join root file) = inr content /\
        In pat forbidden_imports /\
        PyStr.substring_of pat content /\
        m = issue (os_path_join root file) pat.
Proof.
  unfold file_issues. destruct (eligible file).
  2:{ split; [intros [] | intros [H _]; discriminate]. }
  destruct (read_text w (os_path_join root file)) as [e|content].
  - split; [intros [] | intros (_ & c & pat & H & _); discriminate].
  - rewrite in_map_iff. split.
    + intros (pat & Heq & Hin). apply in_matched in Hin as [Hin Hsub].
      split; [reflexivity|]. now exists content, pat.
    + intros (_ & c & pat & Hc & Hin & Hsub & Heq). inversion Hc; subst c.
      exists pat. split; [now symmetry|]. now apply in_matched.
Qed.

Lemma in_source_issues (w : world) (m : string) :
  In m (source_issues w)
  <-> exists root file pat,
        source_violation w root file pat /\
        m = issue (os_path_join root file) pat.
Proof.
  unfold source_issues, source_violation. rewrite in_flat_map. split.
  - intros ([root file] & Hwalk & Hin).
    apply visited_walked in Hwalk.
    apply in_file_issues in Hin as (Hel & content & pat & Hrd & Hp & Hs & Hm).
    exists root, file, pat. split; [|exact Hm].
    split; [exact Hwalk|]. split; [exact Hel|]. now exists content.
  - intros (root & file & pat & (Hv & Hel & content & Hrd & Hp & Hs) & Hm).
    exists (root, file). split; [now apply visited_walked|].
    apply in_file_issues. split; [exact Hel|]. now exists content, pat.
Qed.

Lemma scan_of_dump (w : world) (binary_path dump : string) s :
  path_exists w binary_path = true ->
  symbol_dump w binary_path = Some dump ->
  local_of (check_binary_for_symbols w binary_path s)
  = matched FORBIDDEN_SYMBOLS dump /\
  outcome_of (check_binary_for_symbols w binary_path s)
  = Val (negb (nonempty (matched FORBIDDEN_SYMBOLS dump))).
Proof.
  intros Hex Hdump. unfold symbol_dump in Hdump.
  rewrite check_binary_for_symbols_spec, Hex. cbn [negb].
  destruct (run_process w (nm_argv binary_path)) as [e|r1]; [discriminate|].
  destruct (returncode r1 =? 0)%Z.
  - inversion Hdump; subst. now split.
  - destruct (run_process w (objdump_argv binary_path)) as [e|r2];
      [discriminate|].
    destruct (returncode r2 =? 0)%Z; [|discriminate].
    inversion Hdump; subst. now split.
Qed.

Lemma passed_iff_empty {X} (found : list X) (passed : bool) :
  passed = negb (nonempty found) ->
  (passed = true <-> found = []) /\
  (passed = false <-> exists x, In x found).
Proof.
  intros ->. rewrite <- nonempty_false, <- nonempty_true.
  destruct (nonempty found); cbn; split; split; congruence.
Qed.

(** C5: each scanner passes if and only if the Match sequence it collected
    is empty.  Once a dump is obtained, the binary scanner collects every
    pattern of [FORBIDDEN_SYMBOLS] that occurs in the dump and fails exactly
    when there is one; the source scanner collects one Match for every
    pattern of [forbidden_imports] that occurs in a visited eligible file it
    could read, and fails exactly when there is one. *)
Theorem passed_iff_no_match (w : world) :
  (forall binary_path dump s,
     path_exists w binary_path = true ->
     symbol_dump w binary_path = Some dump ->
     exists found_symbols passed,
       local_of (check_binary_for_symbols w binary_path s) = found_symbols /\
       outcome_of (check_binary_for_symbols w binary_path s) = Val passed /\
       (passed = true <-> found_symbols = []) /\
       (passed = false <->
        exists pat,
          In pat FORBIDDEN_SYMBOLS /\ PyStr.substring_of pat dump) /\
       (forall pat,
          In pat found_symbols
          <-> In pat FORBIDDEN_SYMBOLS /\ PyStr.substring_of pat dump)) /\
  (forall s,
     exists found_issues passed,
       local_of (check_source_code w s) = found_issues /\
       outcome_of (check_source_code w s) = Val passed /\
       (passed = true <-> found_issues = []) /\
       (passed = false <->
        exists root file pat, source_violation w root file pat) /\
       (forall m,
          In m found_issues
          <-> exists root file pat,
                source_violation w root file pat /\
                m = issue (os_path_join root file) pat)).
Proof.
  split.
  - intros binary_path dump s Hex Hdump.
    destruct (scan_of_dump w binary_path dump s Hex Hdump) as [Hloc Hout].
    exists (matched FORBIDDEN_SYMBOLS dump),
           (negb (nonempty (matched FORBIDDEN_SYMBOLS dump))).
    destruct (passed_iff_empty (matched FORBIDDEN_SYMBOLS dump) _ eq_refl)
      as [Htrue Hfalse].
    split; [exact Hloc|]. split; [exact Hout|]. split; [exact Htrue|].
    split; [|intros pat; apply in_matched].
    rewrite Hfalse. split; intros [pat H]; exists pat; now apply in_matched.
  - intros s. rewrite check_source_code_spec.
    exists (source_issues w), (negb (nonempty (source_issues w))).
    destruct (passed_iff_empty (source_issues w) _ eq_refl)
      as [Htrue Hfalse].
    split; [reflexivity|]. split; [reflexivity|]. split; [exact Htrue|].
    split; [|intros m; apply in_source_issues].
    rewrite Hfalse. split.
    + intros [m H].
      apply in_source_issues in H as (root & file & pat & H & _).
      now exists root, file, pat.
    + intros (root & file & pat & H).
      exists (issue (os_path_join root file) pat). apply in_source_issues.
      now exists root, file, pat.
Qed.

Lemma passed_iff_no_match_witness :
  (path_exists (sample_world ["Net.swift"] (tools_objdump "U socket("))
     app_binary = true /\
   symbol_dump (sample_world ["Net.swift"] (tools_objdump "U socket("))
     app_binary = Some "U socket(") /\
  exists found_symbols passed,
    local_of (check_binary_for_symbols
                (sample_world ["Net.swift"] (tools_objdump "U socket("))
                app_binary []) = found_symbols /\
    outcome_of (check_binary_for_symbols
                  (sample_world ["Net.swift"] (tools_objdump "U socket("))
                  app_binary []) = Val passed /\
    (passed = true <-> found_symbols = []) /\
    (passed = false <->
     exists pat,
       In pat FORBIDDEN_SYMBOLS /\ PyStr.substring_of pat "U socket(") /\
    (forall pat,
       In pat found_symbols
       <-> In pat FORBIDDEN_SYMBOLS /\ PyStr.substring_of pat "U socket(").
Proof.
  split; [split; reflexivity|].
  exact (proj1 (passed_iff_no_match
                  (sample_world ["Net.swift"] (tools_objdump "U socket(")))
               app_binary "U socket(" [] eq_refl eq_refl).
Defined.

(** ** One file, several patterns (C7) *)

Lemma precedes_filter {X} (keep : X -> bool) (x y : X) xs :
  precedes x y xs -> keep x = true -> keep y = true ->
  precedes x y (filter keep xs).
Proof.
  intros (a & b & c & ->) Hx Hy.
  exists (filter keep a), (filter keep b), (filter keep c).
  rewrite filter_app. cbn [filter]. rewrite Hx, filter_app. cbn [filter].
  now rewrite Hy.
Qed.

Lemma precedes_map {X Y} (f : X -> Y) (x y : X) xs :
  precedes x y xs -> precedes (f x) (f y) (map f xs).
Proof.
  intros (a & b & c & ->). exists (map f a), (map f b), (map f c).
  rewrite map_app. cbn [map]. now rewrite map_app.
Qed.

Lemma NoDup_map_issue (file_path : string) pats :
  NoDup pats -> NoDup (map (issue file_path) pats).
Proof.
  induction 1 as [|pat pats Hnotin Hnodup IH]; cbn [map]; constructor.
  - rewrite in_map_iff. intros (q & Heq & Hin).
    apply issue_inj in Heq. now subst.
  - exact IH.
Qed.

Lemma two_distinct_members {X} (x y : X) xs :
  In x xs -> In y xs -> x <> y -> 2 <= length xs.
Proof.
  destruct xs as [|a [|b xs]]; cbn.
  - intros [].
  - intros [<-|[]] [<-|[]] Hne. now contradiction Hne.
  - intros _ _ _. lia.
Qed.

(** A source scan that fails read a visited file holding a pattern. *)
Lemma source_failure_has_violation (w : world) s :
  outcome_of (check_source_code w s) = Val false ->
  exists root file pat, source_violation w root file pat.
Proof.
  rewrite check_source_code_returns. intros H.
  destruct (passed_iff_empty (source_issues w) _ eq_refl) as [_ Hfalse].
  assert (Hneg : negb (nonempty (source_issues w)) = false) by congruence.
  apply Hfalse in Hneg as [m Hm].
  apply in_source_issues in Hm as (root & file & pat & Hv & _).
  now exists root, file, pat.
Qed.

(** C7: a file the scanner reads whose content holds two distinct patterns
    of [forbidden_imports] gets a Match for each of them: the Matches of the
    file are one per pattern found, without repetition, in the order of
    [forbidden_imports], and they stand together in [found_issues]. *)
Theorem one_match_per_pattern (w : world) (root file content p1 p2 : string) s :
  eligible file = true ->
  read_text w (os_path_join root file) = inr content ->
  In p1 forbidden_imports -> In p2 forbidden_imports -> p1 <> p2 ->
  PyStr.substring_of p1 content -> PyStr.substring_of p2 content ->
  exists found,
    scan_file w root file s
    = ([EvOpen (os_path_join root file)], s ++ found, Val tt) /\
    found = map (issue (os_path_join root file))
                (matched forbidden_imports content) /\
    In (issue (os_path_join root file) p1) found /\
    In (issue (os_path_join root file) p2) found /\
    issue (os_path_join root file) p1 <> issue (os_path_join root file) p2 /\
    2 <= length found /\
    NoDup found /\
    (forall q1 q2,
       precedes q1 q2 forbidden_imports ->
       PyStr.substring_of q1 content -> PyStr.substring_of q2 content ->
       precedes (issue (os_path_join root file) q1)
                (issue (os_path_join root file) q2) found) /\
    (visited w root file ->
     exists before after,
       local_of (check_source_code w []) = before ++ found ++ after).
Proof.
  intros Hel Hrd Hp1 Hp2 Hne Hs1 Hs2.
  exists (map (issue (os_path_join root file))
              (matched forbidden_imports content)).
  assert (Hissues : file_issues w root file
                    = map (issue (os_path_join root file))
                          (matched forbidden_imports content)).
  { unfold file_issues. now rewrite Hel, Hrd. }
  assert (Hin1 : In (issue (os_path_join root file) p1)
                    (map (issue (os_path_join root file))
                         (matched forbidden_imports content))).
  { apply in_map, in_matched. now split. }
  assert (Hin2 : In (issue (os_path_join root file) p2)
                    (map (issue (os_path_join root file))
                         (matched forbidden_imports content))).
  { apply in_map, in_matched. now split. }
  assert (Hdiff : issue (os_path_join root file) p1
                  <> issue (os_path_join root file) p2).
  { intros H. now apply issue_inj in H. }
  split.
  { rewrite scan_file_spec, Hissues. unfold file_events.
    now rewrite Hel, Hrd. }
  split; [reflexivity|].
  split; [exact Hin1|]. split; [exact Hin2|]. split; [exact Hdiff|].
  split; [exact (two_distinct_members _ _ _ Hin1 Hin2 Hdiff)|].
  split.
  { apply NoDup_map_issue, NoDup_filter, nodupb_NoDup. reflexivity. }
  split.
  { intros q1 q2 Hprec Hq1 Hq2. apply precedes_map.
    apply precedes_filter; [exact Hprec| |]; now apply contains_substring. }
  intros Hvis. rewrite check_source_code_spec. cbn [local_of fst snd].
  apply visited_walked in Hvis. unfold source_issues.
  destruct (flat_map_split (fun '(root, file) => file_issues w root file)
              _ _ Hvis) as (before & after & _ & Heq).
  rewrite Heq, Hissues. eauto.
Qed.

Lemma one_match_per_pattern_witness :
  scan_file (sample_world ["Net.swift"] tools_failing) app_dir "Net.swift" []
  = ([EvOpen "WhisperApp/WhisperApp/Net.swift"],
     ["WhisperApp/WhisperApp/Net.swift: import Network";
      "WhisperApp/WhisperApp/Net.swift: URLSession"],
     Val tt).
Proof.
  destruct (one_match_per_pattern
              (sample_world ["Net.swift"] tools_failing)
              app_dir "Net.swift"
              "import Network; let s = URLSession.shared"
              "import Network" "URLSession" [])
    as (found & Hrun & Hfound & _).
  - reflexivity.
  - reflexivity.
  - cbn. tauto.
  - cbn. tauto.
  - discriminate.
  - now exists EmptyString, "; let s = URLSession.shared".
  - now exists "import Network; let s = ", ".shared".
  - rewrite Hrun, Hfound. reflexivity.
Defined.

(** ** Unreadable files (C8) *)

(** C8: a file that cannot be opened or decoded is skipped with a warning:
    it adds no Match, the files listed after it are scanned all the same,
    and the source scan fails only when a file that could be read holds a
    pattern. *)
Theorem unreadable_file_is_skipped (w : world) (root file : string)
        (e : exn) s :
  eligible file = true ->
  read_text w (os_path_join root file) = inl e ->
  scan_file w root file s
  = ([EvOpen (os_path_join root file);
      EvPrint ("Warning: Could not read " +++ os_path_join root file
               +++ ": " +++ e)],
     s, Val tt) /\
  (forall earlier later s',
     local_of (for_each (earlier ++ file :: later) (scan_file w root) s')
     = local_of (for_each (earlier ++ later) (scan_file w root) s') /\
     outcome_of (for_each (earlier ++ file :: later) (scan_file w root) s')
     = Val tt) /\
  (forall s',
     outcome_of (check_source_code w s') = Val false ->
     exists root' file' content pat,
       visited w root' file' /\
       read_text w (os_path_join root' file') = inr content /\
       In pat forbidden_imports /\
       PyStr.substring_of pat content).
Proof.
  intros Hel Hrd.
  assert (Hnone : file_issues w root file = []).
  { unfold file_issues. now rewrite Hel, Hrd. }
  split; [|split].
  - rewrite scan_file_spec, Hnone, app_nil_r. unfold file_events.
    now rewrite Hel, Hrd.
  - intros earlier later s'.
    rewrite !(for_each_collect _ _ _ (scan_file_spec w root)).
    cbn [local_of outcome_of fst snd].
    rewrite !flat_map_app. cbn [flat_map]. now rewrite Hnone.
  - intros s' Hfail.
    destruct (source_failure_has_violation w s' Hfail)
      as (root' & file' & pat & Hv & _ & content & Hc & Hp & Hs).
    now exists root', file', content, pat.
Qed.

Lemma unreadable_file_is_skipped_witness :
  (eligible "Locked.h" = true /\
   read_text (sample_world ["Locked.h"; "Clean.swift"] tools_failing)
     (os_path_join app_dir "Locked.h")
   = inl "[Errno 13] Permission denied") /\
  scan_file (sample_world ["Locked.h"; "Clean.swift"] tools_failing)
    app_dir "Locked.h" []
  = ([EvOpen "WhisperApp/WhisperApp/Locked.h";
      EvPrint "Warning: Could not read WhisperApp/WhisperApp/Locked.h: [Errno 13] Permission denied"],
     [], Val tt).
Proof.
  split; [split; reflexivity|].
  apply (unreadable_file_is_skipped
           (sample_world ["Locked.h"; "Clean.swift"] tools_failing)
           app_dir "Locked.h" "[Errno 13] Permission denied" []);
    reflexivity.
Defined.

(** ** The run always ends with a verdict (C9) *)

(** A binary scan that fails obtained a dump holding a pattern. *)
Lemma binary_failure_has_violation (w : world) (binary_path : string) s :
  outcome_of (check_binary_for_symbols w binary_path s) = Val false ->
  exists pat, binary_violation w binary_path pat.
Proof.
  unfold binary_violation, symbol_dump.
  rewrite check_binary_for_symbols_spec.
  destruct (path_exists w binary_path); cbn [negb]; [|discriminate].
  assert (Hfound : forall dump,
    Val (negb (nonempty (matched FORBIDDEN_SYMBOLS dump))) = Val false ->
    exists pat,
      In pat FORBIDDEN_SYMBOLS /\ PyStr.substring_of pat dump).
  { intros dump H.
    destruct (passed_iff_empty (matched FORBIDDEN_SYMBOLS dump) _ eq_refl)
      as [_ Hfalse].
    assert (Hneg : negb (nonempty (matched FORBIDDEN_SYMBOLS dump)) = false)
      by congruence.
    apply Hfalse in Hneg as [pat Hpat]. exists pat.
    now apply in_matched. }
  destruct (run_process w (nm_argv binary_path)) as [e|r1]; [discriminate|].
  destruct (returncode r1 =? 0)%Z.
  - intros H. apply Hfound in H as (pat & Hin & Hsub).
    exists pat. split; [reflexivity|]. now exists (stdout r1).
  - destruct (run_process w (objdump_argv binary_path)) as [e|r2];
      [discriminate|].
    destruct (returncode r2 =? 0)%Z; [|discriminate].
    intros H. apply Hfound in H as (pat & Hin & Hsub).
    exists pat. split; [reflexivity|]. now exists (stdout r2).
Qed.

(** C9: the binary scanner returns a boolean for every input and never
    raises: an exception from spawning [nm] or [objdump] is caught and
    turned into [True].  It returns [False] only when a dump was obtained
    and holds a pattern.  [main] therefore always ends in [sys.exit] with 0
    or 1, and with 1 only when the source or the binary holds a pattern. *)
Theorem binary_scanner_never_aborts (w : world) (binary_path : string)
        (argv : list string) s :
  (exists passed,
     outcome_of (check_binary_for_symbols w binary_path s) = Val passed) /\
  (forall e,
     path_exists w binary_path = true ->
     run_process w (nm_argv binary_path) = inl e ->
     outcome_of (check_binary_for_symbols w binary_path s) = Val true) /\
  (forall e,
     path_exists w binary_path = true ->
     exits_nonzero (run_process w (nm_argv binary_path)) ->
     run_process w (objdump_argv binary_path) = inl e ->
     outcome_of (check_binary_for_symbols w binary_path s) = Val true) /\
  (outcome_of (check_binary_for_symbols w binary_path s) = Val false ->
   exists pat, binary_violation w binary_path pat) /\
  (exists code,
     outcome_of (main w argv tt) = SysExit code /\
     (code = 0%Z \/ code = 1%Z)) /\
  (outcome_of (main w argv tt) = SysExit 1%Z ->
   (exists root file pat, source_violation w root file pat) \/
   (exists path pat,
      binary_arg argv = Some path /\ binary_violation w path pat)).
Proof.
  destruct (binary_stage_returns w argv) as [binary_passed Hbin].
  pose proof (check_source_code_returns w []) as Hsrc.
  pose proof (main_exit_code w argv _ _ Hsrc Hbin) as Hmain.
  split; [apply check_binary_for_symbols_returns|].
  split; [|split; [|split; [|split]]].
  - intros e Hex Hnm.
    now rewrite check_binary_for_symbols_spec, Hex, Hnm.
  - intros e Hex Hnm Hobj.
    rewrite check_binary_for_symbols_spec, Hex. cbn [negb].
    destruct (run_process w (nm_argv binary_path)) as [e'|r1];
      [now apply exits_nonzero_inl in Hnm|].
    apply exits_nonzero_inr in Hnm. now rewrite Hnm, Hobj.
  - apply binary_failure_has_violation.
  - rewrite Hmain. destruct (_ && _); eexists; split; eauto.
  - rewrite Hmain.
    destruct (negb (nonempty (source_issues w))) eqn:Hs.
    + destruct binary_passed; cbn [andb]; [discriminate|].
      intros _. right. unfold binary_stage in Hbin.
      destruct (binary_arg argv) as [path|]; [|discriminate].
      apply binary_failure_has_violation in Hbin as [pat Hpat].
      now exists path, pat.
    + intros _. left. apply (source_failure_has_violation w []).
      rewrite check_source_code_returns. congruence.
Qed.

Lemma binary_scanner_never_aborts_witness :
  (path_exists (sample_world [] (tools_no_nm "U socket(")) app_binary = true /\
   run_process (sample_world [] (tools_no_nm "U socket("))
     (nm_argv app_binary)
   = inl "[Errno 2] No such file or directory: 'nm'") /\
  outcome_of (check_binary_for_symbols
                (sample_world [] (tools_no_nm "U socket(")) app_binary [])
  = Val true.
Proof.
  split; [split; reflexivity|].
  apply (proj1 (proj2 (binary_scanner_never_aborts
                         (sample_world [] (tools_no_nm "U socket("))
                         app_binary [] []))
           "[Errno 2] No such file or directory: 'nm'");
    reflexivity.
Defined.

(** ** Determinism (C6) *)

Lemma nonempty_Permutation {X} (xs ys : list X) :
  Permutation xs ys -> nonempty xs = nonempty ys.
Proof.
  intros H. destruct xs, ys; try reflexivity.
  - now apply Permutation_nil in H.
  - now apply Permutation_sym, Permutation_nil in H.
Qed.

Lemma Permutation_flat_map_pointwise {X Y} (f g : X -> list Y) xs :
  (forall x, Permutation (f x) (g x)) ->
  Permutation (flat_map f xs) (flat_map g xs).
Proof.
  intros H. induction xs as [|x xs IH]; cbn; [constructor|].
  now apply Permutation_app.
Qed.

(** The files two listings of the same tree hand to the scanner. *)
Lemma same_tree_files (l1 l2 : list (string * list string * list string)) :
  same_tree l1 l2 ->
  Permutation
    (flat_map (fun '(root, _, files) => map (pair root) files) l1)
    (flat_map (fun '(root, _, files) => map (pair root) files) l2).
Proof.
  intros (l & Hall & Hperm).
  transitivity
    (flat_map (fun '(root, _, files) => map (pair root) files) l).
  - clear Hperm. induction Hall as [|t1 t l1' l' Hsame _ IH]; cbn;
      [constructor|].
    apply Permutation_app; [|exact IH].
    destruct t1 as [[root1 dirs1] files1], t as [[root dirs] files].
    destruct Hsame as (Hroot & _ & Hfiles). cbn in Hroot, Hfiles. subst.
    now apply Permutation_map.
  - now apply Permutation_flat_map.
Qed.

Lemma same_contents_walked (w1 w2 : world) :
  same_contents w1 w2 -> Permutation (walked_files w1) (walked_files w2).
Proof.
  intros (Hex & Htree & _ & _). unfold walked_files.
  apply Permutation_flat_map_pointwise. intros source_dir.
  rewrite Hex. destruct (path_exists w2 source_dir); [|constructor].
  apply same_tree_files, Htree.
Qed.

Lemma file_issues_ext (w1 w2 : world) (root file : string) :
  (forall path, read_text w1 path = read_text w2 path) ->
  file_issues w1 root file = file_issues w2 root file.
Proof. intros H. unfold file_issues. now rewrite H. Qed.

Lemma same_contents_issues (w1 w2 : world) :
  same_contents w1 w2 -> Permutation (source_issues w1) (source_issues w2).
Proof.
  intros Hsame. unfold source_issues.
  rewrite (flat_map_ext _ (fun '(root, file) => file_issues w2 root file)).
  - apply Permutation_flat_map, same_contents_walked, Hsame.
  - intros [root file]. apply file_issues_ext, Hsame.
Qed.

Lemma check_binary_for_symbols_ext (w1 w2 : world) (binary_path : string) s :
  (forall path, path_exists w1 path = path_exists w2 path) ->
  (forall argv, run_process w1 argv = run_process w2 argv) ->
  check_binary_for_symbols w1 binary_path s
  = check_binary_for_symbols w2 binary_path s.
Proof.
  intros Hex Hrun. rewrite !check_binary_for_symbols_spec.
  now rewrite Hex, !Hrun.
Qed.

Lemma binary_stage_ext (w1 w2 : world) (argv : list string) :
  (forall path, path_exists w1 path = path_exists w2 path) ->
  (forall argv, run_process w1 argv = run_process w2 argv) ->
  binary_stage w1 argv = binary_stage w2 argv.
Proof.
  intros Hex Hrun. unfold binary_stage. destruct (binary_arg argv).
  - now apply check_binary_for_symbols_ext.
  - reflexivity.
Qed.

Lemma check_source_code_ext (w1 w2 : world) s :
  same_answers w1 w2 -> check_source_code w1 s = check_source_code w2 s.
Proof.
  intros (Hex & Hwalk & Hread & _).
  assert (Hfiles : walked_files w1 = walked_files w2).
  { unfold walked_files. apply flat_map_ext. intros source_dir.
    now rewrite Hex, Hwalk. }
  rewrite !check_source_code_spec.
  assert (Hissues : source_issues w1 = source_issues w2).
  { unfold source_issues. rewrite Hfiles. apply flat_map_ext.
    intros [root file]. now apply file_issues_ext. }
  assert (Hevents : source_events w1 = source_events w2).
  { unfold source_events. rewrite Hfiles. apply flat_map_ext.
    intros [root file]. unfold file_events. now rewrite Hread. }
  now rewrite Hissues, Hevents.
Qed.

Lemma sample_listings_same_contents :
  same_contents world_net_first world_api_first.
Proof.
  split; [reflexivity|]. split; [|split; reflexivity].
  intros top. unfold world_net_first, world_api_first, sample_world.
  cbn [walk]. destruct (String.eqb top app_dir).
  - exists [(top, [], ["Api.m"; "Net.swift"])]. split; [|reflexivity].
    constructor; [|constructor].
    split; [reflexivity|]. split; [reflexivity|]. apply perm_swap.
  - exists []. split; constructor.
Qed.

(** C6, as the spec states it, fails: the same directory listed in two
    orders gives two different Match sequences, and the first of them is
    not in lexicographic order of the file names. *)
Lemma listing_order_changes_match_order :
  same_contents world_net_first world_api_first /\
  local_of (check_source_code world_net_first [])
  = ["WhisperApp/WhisperApp/Net.swift: import Network";
     "WhisperApp/WhisperApp/Net.swift: URLSession";
     "WhisperApp/WhisperApp/Api.m: #import <CFNetwork/"] /\
  local_of (check_source_code world_api_first [])
  = ["WhisperApp/WhisperApp/Api.m: #import <CFNetwork/";
     "WhisperApp/WhisperApp/Net.swift: import Network";
     "WhisperApp/WhisperApp/Net.swift: URLSession"] /\
  local_of (check_source_code world_net_first [])
  <> local_of (check_source_code world_api_first []) /\
  ~ match_order_fixed_by_contents.
Proof.
  split; [exact sample_listings_same_contents|].
  split; [reflexivity|]. split; [reflexivity|].
  assert (Hdiff : local_of (check_source_code world_net_first [])
                  <> local_of (check_source_code world_api_first []))
    by (vm_compute; discriminate).
  split; [exact Hdiff|].
  intros Hfixed. apply Hdiff, Hfixed, sample_listings_same_contents.
Qed.

(** C6, amended: a run is a function of the answers of the operating
    system: two runs that get the same answers, directory listings in the
    same order included, print the same lines and end with the same verdict
    and the same Match sequence.  The scanner visits files in the order
    [os.walk] lists them and does not sort: when the same contents are
    listed in another order, the verdict and the exit code are the same and
    the Match sequence is the same up to its order. *)
Theorem scan_determined_by_answers (w1 w2 : world) :
  (same_answers w1 w2 ->
   (forall s, check_source_code w1 s = check_source_code w2 s) /\
   (forall binary_path s,
      check_binary_for_symbols w1 binary_path s
      = check_binary_for_symbols w2 binary_path s) /\
   (forall argv, main w1 argv tt = main w2 argv tt)) /\
  (same_contents w1 w2 ->
   Permutation (local_of (check_source_code w1 []))
               (local_of (check_source_code w2 [])) /\
   outcome_of (check_source_code w1 []) = outcome_of (check_source_code w2 [])
   /\
   (forall argv, outcome_of (main w1 argv tt) = outcome_of (main w2 argv tt))).
Proof.
  split.
  - intros Hsame.
    assert (Hsrc : forall s, check_source_code w1 s = check_source_code w2 s)
      by (intros s; now apply check_source_code_ext).
    destruct Hsame as (Hex & _ & _ & Hrun).
    split; [exact Hsrc|].
    split; [intros p s; now apply check_binary_for_symbols_ext|].
    intros argv.
    destruct (binary_stage_returns w1 argv) as [binary_passed Hbin].
    pose proof (check_source_code_returns w1 []) as Hs1.
    rewrite (main_spec w1 argv _ _ Hs1 Hbin).
    rewrite (binary_stage_ext w1 w2 argv Hex Hrun) in Hbin.
    rewrite Hsrc in Hs1.
    rewrite (main_spec w2 argv _ _ Hs1 Hbin).
    now rewrite (binary_stage_ext w1 w2 argv Hex Hrun), Hsrc.
  - intros Hsame.
    pose proof (same_contents_issues w1 w2 Hsame) as Hperm.
    assert (Hout : outcome_of (check_source_code w1 [])
                   = outcome_of (check_source_code w2 [])).
    { rewrite !check_source_code_returns.
      now rewrite (nonempty_Permutation _ _ Hperm). }
    split; [now rewrite !check_source_code_spec|]. split; [exact Hout|].
    intros argv. destruct Hsame as (Hex & _ & _ & Hrun).
    destruct (binary_stage_returns w1 argv) as [binary_passed Hbin].
    pose proof (check_source_code_returns w1 []) as Hs1.
    rewrite (main_exit_code w1 argv _ _ Hs1 Hbin).
    rewrite (binary_stage_ext w1 w2 argv Hex Hrun) in Hbin.
    rewrite Hout in Hs1.
    now rewrite (main_exit_code w2 argv _ _ Hs1 Hbin).
Qed.

Lemma scan_determined_by_answers_witness :
  same_contents world_net_first world_api_first /\
  Permutation (local_of (check_source_code world_net_first []))
              (local_of (check_source_code world_api_first [])) /\
  outcome_of (check_source_code world_net_first []) = Val false.
Proof.
  split; [exact sample_listings_same_contents|].
  split; [|reflexivity].
  exact (proj1 (proj2 (scan_determined_by_answers
                         world_net_first world_api_first)
                 sample_listings_same_contents)).
Defined.

(** ** The scenarios of the spec, run *)

Example scenario_import_network :
  outcome_of (main (sample_world ["Net.swift"] tools_failing) ["check"] tt)
  = SysExit 1%Z.
Proof. reflexivity. Qed.

Example scenario_socket_in_dump :
  outcome_of (main (sample_world ["Clean.swift"] (tools_nm "U socket(@GLIBC"))
                   ["check"; "build/Whisper"] tt)
  = SysExit 1%Z.
Proof. reflexivity. Qed.

Example scenario_all_clean :
  outcome_of (main (sample_world ["Clean.swift"] (tools_nm "T _main"))
                   ["check"; "build/Whisper"] tt)
  = SysExit 0%Z.
Proof. reflexivity. Qed.

Example scenario_no_binary_argument :
  main (sample_world ["Clean.swift"; "notes.txt"] tools_failing) ["check"] tt
  = ([EvPrint "🔍 Checking for networking symbols...";
      EvOpen "WhisperApp/WhisperApp/Clean.swift";
      EvPrint "✅ No forbidden networking imports detected in source code";
      skip_notice;
      EvPrint (nl +++ "✅ All networking checks passed!")],
     tt, SysExit 0%Z).
Proof. reflexivity. Qed.

Example scenario_binary_missing :
  outcome_of (main (sample_world ["Clean.swift"] tools_failing)
                   ["check"; "build/Missing"] tt)
  = SysExit 0%Z.
Proof. reflexivity. Qed.

(** * Further properties of the script *)

(** ** Source directories that are not there *)

(** X1: when neither source directory exists, the source scan reads
    nothing and passes with its success line, whatever a walk would have
    listed; with no binary argument [main] then exits with 0. *)
Theorem no_source_dirs_passes (w : world) s :
  (forall source_dir,
     In source_dir source_dirs -> path_exists w source_dir = false) ->
  check_source_code w s
  = ([EvPrint "✅ No forbidden networking imports detected in source code"],
     [], Val true) /\
  forall argv,
    binary_arg argv = None ->
    outcome_of (main w argv tt) = SysExit 0%Z.
Proof.
  intros Hnone.
  assert (Hwalked : walked_files w = []).
  { unfold walked_files, source_dirs in *.
    cbn [flat_map]. rewrite !Hnone by (cbn; tauto). reflexivity. }
  assert (Hrun : forall s',
    check_source_code w s'
    = ([EvPrint "✅ No forbidden networking imports detected in source code"],
       [], Val true)).
  { intros s'. rewrite check_source_code_spec.
    unfold source_events, source_issues. now rewrite Hwalked. }
  split; [apply Hrun|].
  intros argv Harg.
  rewrite (main_exit_code w argv true true); [reflexivity| |].
  - now rewrite Hrun.
  - unfold binary_stage. now rewrite Harg.
Qed.

Lemma no_source_dirs_passes_witness :
  (forall source_dir,
     In source_dir source_dirs ->
     path_exists world_elsewhere source_dir = false) /\
  check_source_code world_elsewhere []
  = ([EvPrint "✅ No forbidden networking imports detected in source code"],
     [], Val true).
Proof.
  split; [reflexivity|].
  apply (no_source_dirs_passes world_elsewhere []). reflexivity.
Defined.

(** ** Which files are read *)

Lemma length_append (a b : string) :
  String.length (a +++ b) = String.length a + String.length b.
Proof. induction a; cbn; congruence. Qed.

Lemma substring_all (s : string) : String.substring 0 (String.length s) s = s.
Proof. induction s; cbn; congruence. Qed.

Lemma substring_skip (a b : string) (m : nat) :
  String.substring (String.length a) m (a +++ b) = String.substring 0 m b.
Proof. induction a; cbn; [reflexivity | exact IHa]. Qed.




Lemma opened_app (t1 t2 : list event) :
  opened (t1 ++ t2) = opened t1 ++ opened t2.
Proof. apply flat_map_app. Qed.

Lemma printed_app (t1 t2 : list event) :
  printed (t1 ++ t2) = printed t1 ++ printed t2.
Proof. apply flat_map_app. Qed.

Lemma opened_prints {X} (line : X -> string) xs :
  opened (map (fun x => EvPrint (line x)) xs) = [].
Proof. induction xs; cbn; auto. Qed.

Lemma printed_prints {X} (line : X -> string) xs :
  printed (map (fun x => EvPrint (line x)) xs) = map line xs.
Proof.
  unfold printed. induction xs as [|x xs IH]; [reflexivity|].
  cbn [map flat_map app]. now rewrite IH.
Qed.

Lemma opened_source_report found : opened (source_report found) = [].
Proof.
  unfold source_report. destruct (nonempty found); [|reflexivity].
  now rewrite opened_app, opened_prints.
Qed.

Lemma spawned_source_report found : spawned (source_report found) = [].
Proof.
  unfold source_report. destruct (nonempty found); [|reflexivity].
  now rewrite spawned_app, spawned_prints.
Qed.

Lemma printed_source_report found :
  printed (source_report found) = source_report_lines found.
Proof.
  unfold source_report, source_report_lines.
  destruct (nonempty found); [|reflexivity].
  now rewrite printed_app, printed_prints.
Qed.

Lemma printed_binary_report found :
  printed (binary_report found) = binary_report_lines found.
Proof.
  unfold binary_report, binary_report_lines.
  destruct (nonempty found); [|reflexivity].
  now rewrite !printed_app, printed_prints.
Qed.

Lemma opened_file_events (w : world) (root file : string) :
  opened (file_events w root file)
  = if eligible file then [os_path_join root file] else [].
Proof.
  unfold file_events. destruct (eligible file); [|reflexivity].
  now destruct (read_text w (os_path_join root file)).
Qed.

Lemma spawned_file_events (w : world) (root file : string) :
  spawned (file_events w root file) = [].
Proof.
  unfold file_events. destruct (eligible file); [|reflexivity].
  now destruct (read_text w (os_path_join root file)).
Qed.

Lemma printed_file_events (w : world) (root file : string) :
  printed (file_events w root file) = file_warnings w root file.
Proof.
  unfold file_events, file_warnings. destruct (eligible file); [|reflexivity].
  now destruct (read_text w (os_path_join root file)).
Qed.

(** X3: the source scan opens exactly the visited files with an eligible
    name, each once per listing and in the order of the visit, and spawns
    no process; a file with another name is never opened. *)
Theorem source_scan_reads_eligible_only (w : world) s :
  opened (events_of (check_source_code w s))
  = map (fun '(root, file) => os_path_join root file) (eligible_visits w) /\
  spawned (events_of (check_source_code w s)) = [] /\
  forall path,
    In path (opened (events_of (check_source_code w s))) ->
    exists root file,
      visited w root file /\ eligible file = true /\
      path = os_path_join root file.
Proof.
  rewrite check_source_code_spec. cbn [events_of fst].
  rewrite opened_app, spawned_app, opened_source_report,
    spawned_source_report, !app_nil_r.
  assert (Hopened :
    opened (source_events w)
    = map (fun '(root, file) => os_path_join root file) (eligible_visits w)).
  { unfold source_events, eligible_visits, opened.
    rewrite flat_map_flat_map.
    rewrite <- (flat_map_filter_map
                  (fun '(_, file) => eligible file)
                  (fun '(root, file) => os_path_join root file)).
    apply flat_map_ext. intros [root file]. apply opened_file_events. }
  split; [exact Hopened|]. split.
  - unfold source_events, spawned. rewrite flat_map_flat_map.
    rewrite (flat_map_ext _ (fun _ => [])); [apply flat_map_nil|].
    intros [root file]. apply spawned_file_events.
  - intros path. rewrite Hopened, in_map_iff.
    intros ([root file] & <- & Hin). unfold eligible_visits in Hin.
    apply filter_In in Hin as [Hin Hel]. apply visited_walked in Hin.
    now exists root, file.
Qed.

(** ** What is printed *)

(** X4: a source scan prints one warning for each eligible file it could
    not read, then its report: a single success line when it found no
    Match, else two header lines and one line ["  - " + match] for each
    Match, in the order they were found.  A binary scan that obtained a
    dump prints the like for the symbols it found, followed by a closing
    line. *)
Theorem reports_list_the_matches (w : world) :
  (forall s,
     printed (events_of (check_source_code w s))
     = flat_map (fun '(root, file) => file_warnings w root file)
         (walked_files w)
       ++ source_report_lines (local_of (check_source_code w s))) /\
  (forall binary_path dump s,
     path_exists w binary_path = true ->
     symbol_dump w binary_path = Some dump ->
     printed (events_of (check_binary_for_symbols w binary_path s))
     = binary_report_lines
         (local_of (check_binary_for_symbols w binary_path s))).
Proof.
  split.
  - intros s. rewrite check_source_code_spec. cbn [events_of local_of fst snd].
    rewrite printed_app, printed_source_report. f_equal.
    unfold source_events, printed. rewrite flat_map_flat_map.
    apply flat_map_ext. intros [root file]. apply printed_file_events.
  - intros binary_path dump s Hex Hdump. unfold symbol_dump in Hdump.
    rewrite check_binary_for_symbols_spec, Hex. cbn [negb].
    destruct (run_process w (nm_argv binary_path)) as [e|r1]; [discriminate|].
    destruct (returncode r1 =? 0)%Z.
    + cbn [events_of local_of fst snd].
      change (EvRun ?a :: ?t) with ([EvRun a] ++ t).
      now rewrite printed_app, printed_binary_report.
    + destruct (run_process w (objdump_argv binary_path)) as [e|r2];
        [discriminate|].
      destruct (returncode r2 =? 0)%Z; [|discriminate].
      cbn [events_of local_of fst snd].
      change (EvRun ?a :: EvRun ?b :: ?t) with ([EvRun a; EvRun b] ++ t).
      now rewrite printed_app, printed_binary_report.
Qed.

Lemma reports_list_the_matches_witness :
  printed (events_of (check_binary_for_symbols
                        (sample_world [] (tools_nm "U socket( U bind("))
                        app_binary []))
  = ["❌ NETWORKING SYMBOLS DETECTED!";
     "The following forbidden networking symbols were found:";
     "  - socket(";
     "  - bind(";
     nl +++ "Whisper must be completely offline. Remove all networking code."].
Proof.
  rewrite (proj2 (reports_list_the_matches
                    (sample_world [] (tools_nm "U socket( U bind(")))
             app_binary "U socket( U bind(" [] eq_refl eq_refl).
  reflexivity.
Defined.

(** ** A tree that cannot be read *)

Lemma flat_map_all_nil {X Y} (f : X -> list Y) xs :
  (forall x, In x xs -> f x = []) -> flat_map f xs = [].
Proof.
  induction xs as [|x xs IH]; intros H; cbn; [reflexivity|].
  rewrite (H x) by now left. apply IH. intros y Hy. apply H. now right.
Qed.

Lemma one_warning_each (w : world) (visits : list (string * string)) :
  (forall root file,
     In (root, file) visits -> eligible file = true ->
     exists e, read_text w (os_path_join root file) = inl e) ->
  length (flat_map (fun '(root, file) => file_warnings w root file) visits)
  = length (filter (fun '(_, file) => eligible file) visits).
Proof.
  induction visits as [|[root file] visits IH]; intros H; [reflexivity|].
  cbn [flat_map filter]. rewrite length_app, IH.
  - unfold file_warnings. destruct (eligible file) eqn:Hel; [|reflexivity].
    destruct (H root file) as [e He]; [now left | exact Hel |].
    now rewrite He.
  - intros r f Hin. apply H. now right.
Qed.

(** X5: when every eligible file of the tree fails to open or decode, the
    source scan still passes: it records no Match and prints one warning
    for each such file and then its success line. *)
Theorem unreadable_tree_passes (w : world) s :
  (forall root file,
     visited w root file -> eligible file = true ->
     exists e, read_text w (os_path_join root file) = inl e) ->
  outcome_of (check_source_code w s) = Val true /\
  local_of (check_source_code w s) = [] /\
  length (printed (events_of (check_source_code w s)))
  = length (eligible_visits w) + 1.
Proof.
  intros Hall.
  assert (Hnone : source_issues w = []).
  { unfold source_issues. apply flat_map_all_nil. intros [root file] Hin.
    apply visited_walked in Hin. unfold file_issues.
    destruct (eligible file) eqn:Hel; [|reflexivity].
    destruct (Hall root file Hin Hel) as [e He]. now rewrite He. }
  rewrite check_source_code_spec.
  cbn [outcome_of local_of events_of fst snd]. rewrite Hnone.
  split; [reflexivity|]. split; [reflexivity|].
  rewrite printed_app, length_app. cbn [source_report nonempty printed
    flat_map app length]. f_equal.
  unfold source_events, printed. rewrite flat_map_flat_map.
  rewrite (flat_map_ext _ (fun '(root, file) => file_warnings w root file)).
  - apply one_warning_each. intros root file Hin.
    apply Hall. now apply visited_walked.
  - intros [root file]. apply printed_file_events.
Qed.

Lemma unreadable_tree_passes_witness :
  check_source_code (sample_world ["Locked.h"; "notes.txt"] tools_failing) []
  = ([EvOpen "WhisperApp/WhisperApp/Locked.h";
      EvPrint "Warning: Could not read WhisperApp/WhisperApp/Locked.h: [Errno 13] Permission denied";
      EvPrint "✅ No forbidden networking imports detected in source code"],
     [], Val true) /\
  outcome_of (check_source_code
                (sample_world ["Locked.h"; "notes.txt"] tools_failing) [])
  = Val true.
Proof.
  split; [reflexivity|].
  apply (unreadable_tree_passes
           (sample_world ["Locked.h"; "notes.txt"] tools_failing) []).
  intros root file (source_dir & dirs & files & Hdir & Hex & Htriple & Hfile)
    Hel.
  unfold sample_world in Htriple. cbn [walk] in Htriple.
  destruct Hdir as [<-|[<-|[]]]; cbn in Htriple; [|contradiction].
  destruct Htriple as [Heq|[]]. inversion Heq; subst.
  destruct Hfile as [<-|[<-|[]]]; [|discriminate].
  now exists "[Errno 13] Permission denied".
Defined.

(** ** The symbols a binary scan reports *)

(** X6: the symbols a binary scan found are listed without repetition and
    in the order of [FORBIDDEN_SYMBOLS], however often and in whatever
    order they occur in the dump; there are at most 24 of them. *)
Theorem found_symbols_follow_registry (w : world) (binary_path dump : string) s :
  path_exists w binary_path = true ->
  symbol_dump w binary_path = Some dump ->
  NoDup (local_of (check_binary_for_symbols w binary_path s)) /\
  length (local_of (check_binary_for_symbols w binary_path s)) <= 24 /\
  forall q1 q2,
    precedes q1 q2 FORBIDDEN_SYMBOLS ->
    PyStr.substring_of q1 dump -> PyStr.substring_of q2 dump ->
    precedes q1 q2 (local_of (check_binary_for_symbols w binary_path s)).
Proof.
  intros Hex Hdump.
  destruct (scan_of_dump w binary_path dump s Hex Hdump) as [-> _].
  unfold matched. split; [|split].
  - apply NoDup_filter, nodupb_NoDup. reflexivity.
  - change 24 with (length FORBIDDEN_SYMBOLS).
    pose proof (NoDup_incl_length
                  (NoDup_filter (PyStr.contains dump)
                     (nodupb_NoDup FORBIDDEN_SYMBOLS eq_refl))
                  (incl_filter (PyStr.contains dump) FORBIDDEN_SYMBOLS)).
    assumption.
  - intros q1 q2 Hprec Hq1 Hq2.
    apply precedes_filter; [exact Hprec| |]; now apply contains_substring.
Qed.

Lemma found_symbols_follow_registry_witness :
  (path_exists (sample_world [] (tools_nm "U bind( U socket( U bind("))
     app_binary = true /\
   symbol_dump (sample_world [] (tools_nm "U bind( U socket( U bind("))
     app_binary = Some "U bind( U socket( U bind(" /\
   local_of (check_binary_for_symbols
               (sample_world [] (tools_nm "U bind( U socket( U bind("))
               app_binary [])
   = ["socket("; "bind("]) /\
  NoDup (local_of (check_binary_for_symbols
                     (sample_world [] (tools_nm "U bind( U socket( U bind("))
                     app_binary [])).
Proof.
  split; [repeat split|].
  apply (found_symbols_follow_registry
           (sample_world [] (tools_nm "U bind( U socket( U bind("))
           app_binary "U bind( U socket( U bind(" []); reflexivity.
Defined.

(** ** Patterns inside patterns, and growing text *)

Lemma substring_of_trans (p q c : string) :
  PyStr.substring_of p q -> PyStr.substring_of q c -> PyStr.substring_of p c.
Proof.
  intros (a & b & ->) (a' & b' & ->).
  exists (a' +++ a), (b +++ b').
  now rewrite !append_assoc.
Qed.

Lemma substring_of_length (p c : string) :
  PyStr.substring_of p c -> String.length p <= String.length c.
Proof. intros (a & b & ->). rewrite !length_append. lia. Qed.

(** X7: a pattern that lies inside another pattern of the same list is
    reported whenever the longer one is.  So a dump holding [NSURLSession]
    is reported for [URLSession] too, and a file holding [@import Network],
    [@import CFNetwork] or [NSURLSession] gets a second Match for the
    pattern without the prefix. *)
Theorem longer_pattern_brings_shorter (w : world) :
  (forall pats corpus short long,
     In short pats -> PyStr.substring_of short long ->
     In long (matched pats corpus) -> In short (matched pats corpus)) /\
  (forall binary_path dump s,
     path_exists w binary_path = true ->
     symbol_dump w binary_path = Some dump ->
     PyStr.substring_of "NSURLSession" dump ->
     In "NSURLSession" (local_of (check_binary_for_symbols w binary_path s))
     /\
     In "URLSession" (local_of (check_binary_for_symbols w binary_path s)))
  /\
  (forall root file content long short s,
     eligible file = true ->
     read_text w (os_path_join root file) = inr content ->
     In (long, short)
        [("@import Network", "import Network");
         ("@import CFNetwork", "import CFNetwork");
         ("NSURLSession", "URLSession")] ->
     PyStr.substring_of long content ->
     In (issue (os_path_join root file) long)
        (local_of (scan_file w root file s)) /\
     In (issue (os_path_join root file) short)
        (local_of (scan_file w root file s))).
Proof.
  assert (Hgen : forall pats corpus short long,
    In short pats -> PyStr.substring_of short long ->
    In long (matched pats corpus) -> In short (matched pats corpus)).
  { intros pats corpus short long Hin Hsub Hlong.
    apply in_matched in Hlong as [_ Hlong]. apply in_matched.
    split; [exact Hin|]. exact (substring_of_trans _ _ _ Hsub Hlong). }
  split; [exact Hgen|]. split.
  - intros binary_path dump s Hex Hdump Hsub.
    destruct (scan_of_dump w binary_path dump s Hex Hdump) as [-> _].
    assert (Hlong : In "NSURLSession" (matched FORBIDDEN_SYMBOLS dump)).
    { apply in_matched. split; [cbn; tauto | exact Hsub]. }
    split; [exact Hlong|].
    apply (Hgen _ _ "URLSession" "NSURLSession"); [cbn; tauto| |exact Hlong].
    now exists "NS", EmptyString.
  - intros root file content long short s Hel Hrd Hpair Hsub.
    rewrite scan_file_spec. cbn [local_of fst snd].
    unfold file_issues. rewrite Hel, Hrd.
    assert (Hboth : In long forbidden_imports /\ In short forbidden_imports
                    /\ PyStr.substring_of short long).
    { destruct Hpair as [H|[H|[H|[]]]]; inversion H; subst;
        (split; [cbn; tauto|]); (split; [cbn; tauto|]).
      - now exists "@", EmptyString.
      - now exists "@", EmptyString.
      - now exists "NS", EmptyString. }
    destruct Hboth as (Hlong & Hshort & Hin).
    assert (Hfound : In long (matched forbidden_imports content)).
    { apply in_matched. now split. }
    split; apply in_or_app; right; apply in_map; [exact Hfound|].
    exact (Hgen _ _ short long Hshort Hin Hfound).
Qed.

Lemma longer_pattern_brings_shorter_witness :
  local_of (check_binary_for_symbols
              (sample_world [] (tools_nm "U _OBJC_CLASS_$_NSURLSession"))
              app_binary [])
  = ["URLSession"; "NSURLSession"] /\
  In "URLSession"
     (local_of (check_binary_for_symbols
                  (sample_world [] (tools_nm "U _OBJC_CLASS_$_NSURLSession"))
                  app_binary [])).
Proof.
  split; [reflexivity|].
  apply (proj1 (proj2 (longer_pattern_brings_shorter
                         (sample_world []
                            (tools_nm "U _OBJC_CLASS_$_NSURLSession"))))
           app_binary "U _OBJC_CLASS_$_NSURLSession" []).
  - reflexivity.
  - reflexivity.
  - now exists "U _OBJC_CLASS_$_", EmptyString.
Defined.

(** X8: text can only add matches: when the dump one binary scan obtained
    occurs inside the dump another one obtained, every symbol the first
    found is found by the second, and if the first failed so does the
    second. *)
Theorem larger_dump_keeps_matches (w1 w2 : world) (path1 path2 : string)
        (dump1 dump2 : string) s1 s2 :
  path_exists w1 path1 = true -> symbol_dump w1 path1 = Some dump1 ->
  path_exists w2 path2 = true -> symbol_dump w2 path2 = Some dump2 ->
  PyStr.substring_of dump1 dump2 ->
  incl (local_of (check_binary_for_symbols w1 path1 s1))
       (local_of (check_binary_for_symbols w2 path2 s2)) /\
  (outcome_of (check_binary_for_symbols w1 path1 s1) = Val false ->
   outcome_of (check_binary_for_symbols w2 path2 s2) = Val false).
Proof.
  intros Hex1 Hd1 Hex2 Hd2 Hsub.
  destruct (scan_of_dump w1 path1 dump1 s1 Hex1 Hd1) as [-> ->].
  destruct (scan_of_dump w2 path2 dump2 s2 Hex2 Hd2) as [-> ->].
  assert (Hincl : incl (matched FORBIDDEN_SYMBOLS dump1)
                       (matched FORBIDDEN_SYMBOLS dump2)).
  { intros pat Hin. apply in_matched in Hin as [Hin Hpat].
    apply in_matched. split; [exact Hin|].
    exact (substring_of_trans _ _ _ Hpat Hsub). }
  split; [exact Hincl|].
  intros Hfail. f_equal.
  destruct (matched FORBIDDEN_SYMBOLS dump1) as [|pat rest]; [discriminate|].
  destruct (matched FORBIDDEN_SYMBOLS dump2) as [|pat' rest'];
    [|reflexivity].
  destruct (Hincl pat (or_introl eq_refl)).
Qed.

Lemma larger_dump_keeps_matches_witness :
  PyStr.substring_of "U socket(" "T _main U socket( U bind(" /\
  incl (local_of (check_binary_for_symbols
                    (sample_world [] (tools_nm "U socket(")) app_binary []))
       (local_of (check_binary_for_symbols
                    (sample_world [] (tools_objdump "T _main U socket( U bind("))
                    app_binary [])).
Proof.
  assert (Hsub : PyStr.substring_of "U socket(" "T _main U socket( U bind(")
    by now exists "T _main ", " U bind(".
  split; [exact Hsub|].
  apply (larger_dump_keeps_matches
           (sample_world [] (tools_nm "U socket("))
           (sample_world [] (tools_objdump "T _main U socket( U bind("))
           app_binary app_binary
           "U socket(" "T _main U socket( U bind(" [] []);
    try reflexivity.
  exact Hsub.
Defined.

(** ** Text too short to hold a pattern *)

(** X9: no pattern is empty, so empty text never matches: a dump shorter
    than 5 characters makes the binary scan pass with nothing found, and a
    file shorter than 10 characters adds no Match. *)
Theorem short_text_has_no_match (w : world) :
  (forall binary_path dump s,
     path_exists w binary_path = true ->
     symbol_dump w binary_path = Some dump ->
     String.length dump < 5 ->
     local_of (check_binary_for_symbols w binary_path s) = [] /\
     outcome_of (check_binary_for_symbols w binary_path s) = Val true) /\
  (forall root file content s,
     read_text w (os_path_join root file) = inr content ->
     String.length content < 10 ->
     local_of (scan_file w root file s) = s).
Proof.
  assert (Hshort : forall pats corpus n,
    forallb (fun pat => (n <=? String.length pat)%nat) pats = true ->
    String.length corpus < n -> matched pats corpus = []).
  { intros pats corpus n Hall Hlen. unfold matched.
    rewrite forallb_forall in Hall.
    induction pats as [|pat pats IH]; [reflexivity|]. cbn [filter].
    destruct (PyStr.contains corpus pat) eqn:Hc.
    - apply contains_substring, substring_of_length in Hc.
      specialize (Hall pat (or_introl eq_refl)).
      apply Nat.leb_le in Hall. lia.
    - apply IH. intros q Hq. apply Hall. now right. }
  split.
  - intros binary_path dump s Hex Hdump Hlen.
    destruct (scan_of_dump w binary_path dump s Hex Hdump) as [-> ->].
    now rewrite (Hshort FORBIDDEN_SYMBOLS dump 5 eq_refl Hlen).
  - intros root file content s Hrd Hlen.
    rewrite scan_file_spec. cbn [local_of fst snd].
    unfold file_issues. rewrite Hrd.
    destruct (eligible file); [|apply app_nil_r].
    rewrite (Hshort forbidden_imports content 10 eq_refl Hlen).
    apply app_nil_r.
Qed.

Lemma short_text_has_no_match_witness :
  (symbol_dump (sample_world [] (tools_nm EmptyString)) app_binary
   = Some EmptyString /\ String.length EmptyString < 5) /\
  outcome_of (check_binary_for_symbols
                (sample_world [] (tools_nm EmptyString)) app_binary [])
  = Val true.
Proof.
  split; [split; [reflexivity | cbn; lia]|].
  apply (proj1 (short_text_has_no_match
                  (sample_world [] (tools_nm EmptyString)))
           app_binary EmptyString []); [reflexivity | reflexivity | cbn; lia].
Defined.

(** ** Both stages of [main] *)





(** ** Match lines *)

Lemma append_nil_r (a : string) : a +++ EmptyString = a.
Proof. induction a; cbn; congruence. Qed.

Lemma length_zero_empty (a : string) : String.length a = 0 -> a = EmptyString.
Proof. now destruct a. Qed.

Lemma app_suffix_split (a b c d : string) :
  a +++ b = c +++ d -> String.length b <= String.length d ->
  exists z, d = z +++ b /\ a = c +++ z.
Proof.
  revert c. induction a as [|x a IH]; intros c H Hlen.
  - cbn in H. subst b. rewrite length_append in Hlen.
    assert (Hc : c = EmptyString) by (apply length_zero_empty; lia).
    subst c. now exists EmptyString.
  - destruct c as [|y c]; cbn in H.
    + exists (String x a). now split.
    + inversion H; subst y.
      destruct (IH c H2 Hlen) as (z & Hd & Ha).
      exists z. split; [exact Hd|]. cbn. now rewrite Ha.
Qed.

Lemma issue_apart (f1 f2 p1 p2 : string) :
  String.length p1 <= String.length p2 ->
  match_lines_apart p1 p2 = true ->
  issue f1 p1 = issue f2 p2 -> f1 = f2 /\ p1 = p2.
Proof.
  unfold issue. intros Hlen Hapart Heq.
  destruct (app_suffix_split f1 (": " +++ p1) f2 (": " +++ p2) Heq)
    as (z & Hd & Hf).
  { rewrite !length_append. lia. }
  assert (Hz : String.length z = String.length p2 - String.length p1).
  { apply (f_equal String.length) in Hd.
    rewrite !length_append in Hd. lia. }
  destruct (Nat.eq_dec (String.length p1) (String.length p2)) as [Hsame|Hless].
  - assert (z = EmptyString) by (apply length_zero_empty; lia). subst z.
    cbn in Hd. inversion Hd. split; [|reflexivity].
    now rewrite append_nil_r in Hf.
  - exfalso. unfold match_lines_apart in Hapart.
    assert (Hlt : (String.length p1 <? String.length p2)%nat = true)
      by (apply Nat.ltb_lt; lia).
    rewrite Hlt, <- Hz, Hd, substring_skip, substring_all in Hapart.
    now rewrite String.eqb_refl in Hapart.
Qed.

(** X11: a Match line of the source scan names its file and its pattern
    without ambiguity: two lines [path + ": " + pattern] with patterns of
    [forbidden_imports] are equal only when both the paths and the patterns
    are equal. *)
Theorem match_line_names_file_and_pattern (f1 f2 p1 p2 : string) :
  In p1 forbidden_imports -> In p2 forbidden_imports ->
  issue f1 p1 = issue f2 p2 ->
  f1 = f2 /\ p1 = p2.
Proof.
  intros Hp1 Hp2 Heq.
  assert (Hall :
    forallb (fun q1 => forallb (match_lines_apart q1) forbidden_imports)
            forbidden_imports = true) by reflexivity.
  rewrite forallb_forall in Hall.
  destruct (Nat.le_ge_cases (String.length p1) (String.length p2))
    as [Hle|Hge].
  - apply (issue_apart f1 f2 p1 p2 Hle); [|exact Heq].
    pose proof (Hall p1 Hp1) as H. rewrite forallb_forall in H. now apply H.
  - destruct (issue_apart f2 f1 p2 p1 Hge) as [-> ->]; [|now symmetry|easy].
    pose proof (Hall p2 Hp2) as H. rewrite forallb_forall in H. now apply H.
Qed.

Lemma match_line_names_file_and_pattern_witness :
  issue "WhisperApp/Tests/NetTests.swift" "NSURLSession"
  = "WhisperApp/Tests/NetTests.swift: NSURLSession" /\
  ("WhisperApp/Tests/NetTests.swift" = "WhisperApp/Tests/NetTests.swift" /\
   "NSURLSession" = "NSURLSession").
Proof.
  split; [reflexivity|].
  apply (match_line_names_file_and_pattern
           "WhisperApp/Tests/NetTests.swift" "WhisperApp/Tests/NetTests.swift"
           "NSURLSession" "NSURLSession").
  - cbn. tauto.
  - cbn. tauto.
  - reflexivity.
Defined.
